(** * feinsum.tuning: the autotuning search-and-cache engine

    A shallow embedding of [src/feinsum/tuning/__init__.py]: the tuning
    parameter declarations, the parametrized transform and its [bind_args],
    the transform-space loader, the SQLite-backed result cache of
    [OpentunerTuner] and the per-candidate [run] step, followed by the
    properties established about them. *)

From Stdlib Require Import ZArith QArith Bool List String Ascii Lia.
From Stdlib Require Import DecimalString Sorted.
Import ListNotations.

Local Open Scope string_scope.
Local Open Scope Z_scope.

(** ** Python values *)

(** A Python [float] as far as the tuner looks at one: a measured runtime,
    which is a finite number, or [np.inf]. *)
Inductive float : Type :=
| Finite (q : Q)
| Inf.

(** [x < y] on floats. *)
Definition float_ltb (x y : float) : bool :=
  match x, y with
  | Finite a, Finite b => if Qlt_le_dec a b then true else false
  | Finite _, Inf => true
  | Inf, _ => false
  end.

(** The builtin [min] over a non-empty sequence: it keeps the first item and
    replaces it whenever a later item is strictly smaller. *)
Definition py_min (first : float) (rest : list float) : float :=
  fold_left (fun best x => if float_ltb x best then x else best) rest first.

(** A callable object: a plain function, known by its name, or
    [functools.cache(fn)]. *)
Inductive callable : Type :=
| Fn (name : string)
| cache (fn : callable).

(** [einsum_arg] and [transform_param] are frozen dataclasses with the two
    fields [var_name] and [func]; [func] is a Python function, referred to
    by its name and applied through the interpretation of the enclosing
    section. *)
Module einsum_arg.
Record t : Type := mk { var_name : string; func : string }.
End einsum_arg.

Module transform_param.
Record t : Type := mk { var_name : string; func : string }.
End transform_param.

Record ParametrizedTransform : Type := mkParametrizedTransform {
  transform : callable;
  einsum_derivative_args : list einsum_arg.t;
  transform_params : list transform_param.t
}.

(** The objects that reach the modelled code. *)
Inductive pyobj : Type :=
| PyNone
| PyBool (b : bool)
| PyInt (z : Z)
| NpInteger (z : Z)
| PyFloat (x : float)
| PyStr (s : string)
| PyCallable (c : callable)
| PyParametrizedTransform (pt : ParametrizedTransform).

(** ** Exceptions and the effect monad *)

Inductive exn : Type :=
| ValueError (msg : string)
| TypeError (msg : string)
| RuntimeError (msg : string)
| AssertionError
| AttributeError (msg : string)
| ConfigurationNotInDBError
| InvalidParameterError (msg : string)
| OtherError (cls msg : string).

Inductive result (A : Type) : Type :=
| Ok (a : A)
| Raise (e : exn).
Arguments Ok {A} a.
Arguments Raise {A} e.

(** ** Supported tuning parameters *)

(** Modelled from the spec: [INT_CLASSES] of [feinsum.einsum], the tuple of
    classes of the integer-type check.  Python's [int] and NumPy's integer
    scalars pass it; [bool] is a subclass of [int], so it passes too. *)
Definition isinstance_INT_CLASSES (o : pyobj) : bool :=
  match o with
  | PyInt _ | PyBool _ | NpInteger _ => true
  | _ => false
  end.

Module IntParameter.
Record t : Type := mk { low : pyobj; high : pyobj }.

(** [IntParameter.__init__] *)
Definition init (low high : pyobj) : result t :=
  if negb (isinstance_INT_CLASSES low) then
    Raise (ValueError "low must be an integer")
  else if negb (isinstance_INT_CLASSES high) then
    Raise (ValueError "high must be an integer")
  else Ok (mk low high).
End IntParameter.

Inductive TuningParameter : Type :=
| IntParameter_ (p : IntParameter.t)
| BoolParameter.

(** The integer an object of an integer class stands for. *)
Definition int_value (o : pyobj) : option Z :=
  match o with
  | PyInt z | NpInteger z => Some z
  | PyBool b => Some (if b then 1 else 0)
  | _ => None
  end.

(** [low <= high], for bounds that are integers. *)
Definition bounds_ordered (p : IntParameter.t) : Prop :=
  match int_value (IntParameter.low p), int_value (IntParameter.high p) with
  | Some l, Some h => l <= h
  | _, _ => False
  end.

(** ** Strings and paths *)

Definition sep : ascii := "/"%char.

(** [s.endswith(suffix)] *)
Definition endswith (s suffix : string) : bool :=
  let n := String.length s in
  let m := String.length suffix in
  (m <=? n)%nat && String.eqb (substring (n - m) m s) suffix.

(** [s[:-k]] *)
Definition drop_last (k : nat) (s : string) : string :=
  substring 0 (String.length s - k) s.

(** [s.rstrip("/")] *)
Fixpoint rstrip_sep (s : string) : string :=
  match s with
  | EmptyString => EmptyString
  | String c r =>
      let r' := rstrip_sep r in
      if (c =? sep)%char && String.eqb r' "" then "" else String c r'
  end.

(** [(p[:i], p[i:])] for [i = p.rfind("/") + 1]. *)
Fixpoint cut_after_last_sep (p : string) : string * string :=
  match p with
  | EmptyString => ("", "")
  | String c r =>
      let (h, t) := cut_after_last_sep r in
      if negb (String.eqb h "") then (String c h, t)
      else if (c =? sep)%char then (String c "", t)
      else ("", String c t)
  end.

(** [os.path.split] of [posixpath]: the head loses its trailing slashes
    unless it consists of slashes only. *)
Definition os_path_split (p : string) : string * string :=
  let (head, tail) := cut_after_last_sep p in
  if negb (String.eqb head "") && negb (String.eqb (rstrip_sep head) "")
  then (rstrip_sep head, tail)
  else (head, tail).

(** [os.path.isabs] of [posixpath]. *)
Definition os_path_isabs (s : string) : bool := prefix "/" s.

(** ** [json.dumps(parameters, sort_keys=True)] *)

(** A [dict] with [str] keys, in insertion order.  The keys of a dict are
    pairwise different. *)
Definition dict : Type := list (string * pyobj).

Definition dict_wf (d : dict) : Prop := NoDup (map fst d).

Fixpoint dict_get (d : dict) (k : string) : option pyobj :=
  match d with
  | [] => None
  | (k', v) :: d' => if String.eqb k' k then Some v else dict_get d' k
  end.

Definition dict_contains (d : dict) (k : string) : bool :=
  match dict_get d k with Some _ => true | None => false end.

(** [d[k] = v]: an existing key keeps its place, a new key goes last. *)
Fixpoint dict_set (d : dict) (k : string) (v : pyobj) : dict :=
  match d with
  | [] => [(k, v)]
  | (k', v') :: d' =>
      if String.eqb k' k then (k', v) :: d' else (k', v') :: dict_set d' k v
  end.

(** [sorted(d.items())].  Two items of a dict never have the same key, so
    the comparison of two items is the comparison of their keys, which for
    [str] is the lexicographic one on code points. *)
Fixpoint insert_item (x : string * pyobj) (l : dict) : dict :=
  match l with
  | [] => [x]
  | y :: l' =>
      if String.ltb (fst y) (fst x) then y :: insert_item x l'
      else x :: y :: l'
  end.

Definition sorted_items (d : dict) : dict := fold_right insert_item [] d.

(** Items in strictly increasing order of their keys. *)
Definition key_lt (x y : string * pyobj) : Prop :=
  String.ltb (fst x) (fst y) = true.

Definition hex_digit (n : N) : ascii :=
  if (n <? 10)%N then ascii_of_N (48 + n) else ascii_of_N (87 + n).

(** The replacement of one character in [py_encode_basestring_ascii]:
    everything outside [' '..'~'], the quote and the backslash are escaped. *)
Definition escape_char (c : ascii) : string :=
  let n := N_of_ascii c in
  if (n =? 34)%N then "\" ++ String c ""
  else if (n =? 92)%N then "\\"
  else if (n =? 10)%N then "\n"
  else if (n =? 13)%N then "\r"
  else if (n =? 9)%N then "\t"
  else if (n =? 12)%N then "\f"
  else if (n =? 8)%N then "\b"
  else if ((32 <=? n) && (n <=? 126))%N then String c ""
  else "\u00" ++ String (hex_digit (n / 16)) (String (hex_digit (n mod 16)) "").

Fixpoint escape_chars (s : string) : string :=
  match s with
  | EmptyString => EmptyString
  | String c r => escape_char c ++ escape_chars r
  end.

Definition quote : string := String (ascii_of_N 34) "".

Definition py_encode_basestring_ascii (s : string) : string :=
  quote ++ escape_chars s ++ quote.

Definition class_name (o : pyobj) : string :=
  match o with
  | PyNone => "NoneType"
  | PyBool _ => "bool"
  | PyInt _ => "int"
  | NpInteger _ => "int64"
  | PyFloat _ => "float"
  | PyStr _ => "str"
  | PyCallable (Fn _) => "function"
  | PyCallable (cache _) => "_lru_cache_wrapper"
  | PyParametrizedTransform _ => "ParametrizedTransform"
  end.

Section Json.
(** [float.__repr__] on finite floats is a builtin, taken as given. *)
Variable float_repr : Q -> string.

Definition json_value (o : pyobj) : result string :=
  match o with
  | PyNone => Ok "null"
  | PyBool true => Ok "true"
  | PyBool false => Ok "false"
  | PyInt z => Ok (NilZero.string_of_int (Z.to_int z))
  | PyFloat (Finite q) => Ok (float_repr q)
  | PyFloat Inf => Ok "Infinity"
  | PyStr s => Ok (py_encode_basestring_ascii s)
  | _ => Raise (TypeError ("Object of type " ++ class_name o
                           ++ " is not JSON serializable"))
  end.

(** The items [key: value] of a dict, in the given order, separated by
    [", "]. *)
Fixpoint json_items (first : bool) (l : dict) : result string :=
  match l with
  | [] => Ok ""
  | (k, v) :: l' =>
      match json_value v with
      | Raise e => Raise e
      | Ok sv =>
          match json_items false l' with
          | Raise e => Raise e
          | Ok rest =>
              Ok ((if first then "" else ", ")
                  ++ py_encode_basestring_ascii k ++ ": " ++ sv ++ rest)
          end
      end
  end.

Definition json_dumps_sort_keys (d : dict) : result string :=
  match json_items true (sorted_items d) with
  | Raise e => Raise e
  | Ok body => Ok ("{" ++ body ++ "}")
  end.
End Json.

(** ** Collaborators *)

(** [functools.partial(func, **keywords)] *)
Module partial.
Record t : Type := mk { func : callable; keywords : dict }.
End partial.

(** What [importlib.util.spec_from_file_location] returns, and a loaded
    module seen as its attributes. *)
Record ModuleSpec : Type := mkModuleSpec {
  spec_name : string;
  spec_origin : string;
  spec_has_loader : bool
}.

Definition module : Type := list (string * pyobj).

(** Everything the tuner calls and does not define: the problem instance
    and its fingerprint ([feinsum.einsum], [feinsum.sql_utils],
    [feinsum.canonicalization]), the measurement routines
    ([feinsum.measure]), the functions the decorators were given, the import
    machinery and two builtins.  [cl_Context] stands for a [cl.Context] with
    its one device: the tuner unpacks [dev, = self.cl_ctx.devices]. *)
Class External : Type := {
  FusedEinsum : Type;
  cl_Context : Type;
  canonicalize_einsum : FusedEinsum -> FusedEinsum;
  get_subscripts : FusedEinsum -> string;
  dump_index_to_length : FusedEinsum -> string;
  dump_use_matrix : FusedEinsum -> string;
  dump_value_to_dtype : FusedEinsum -> string;
  dump_op_info : FusedEinsum -> Z -> string;
  dump_cl_version : cl_Context -> string;
  DEFAULT_DB : string;
  _get_impls_path : string;
  float_repr : Q -> string;
  call_func : string -> FusedEinsum -> result pyobj;
  stringify_comparison_vs_roofline :
    FusedEinsum -> partial.t -> cl_Context -> Z -> result string;
  timeit : FusedEinsum -> cl_Context -> partial.t -> Z -> result float;
  spec_from_file_location : string -> string -> option ModuleSpec;
  exec_module : ModuleSpec -> result module
}.

(** ** The result cache and the state of a tuning process *)

(** A row of the device's table. *)
Module row.
Record t : Type := mk {
  ID : Z;
  subscripts : string;
  index_to_length : string;
  use_matrix : string;
  value_to_dtype : string;
  transform_id : string;
  transform_params : string;
  runtime_in_sec : float;
  compiler_version : string;
  giga_op_info : string;
  timestamp : string
}.
End row.

(** [opentuner.Result(time=...)] *)
Record Result : Type := mkResult { time : float }.

Section Tuner.
Context {E : External}.

(** The calls that leave the tuner, in the order they are made. *)
Inductive call : Type :=
| call_einsum_arg (func : string) (einsum : FusedEinsum)
| call_roofline (einsum : FusedEinsum) (transform : partial.t)
| call_timeit (einsum : FusedEinsum) (transform : partial.t)
| call_exec_module (spec : ModuleSpec).

(** The device's table in the database file ([None] until it is created),
    the calls made so far, the time of day in Chicago as [strftime]
    prints it, and the slot of the cached property [transform_func]. *)
Record world : Type := mkWorld {
  table : option (list row.t);
  calls : list call;
  now_Chicago : string;
  transform_func_slot : option ParametrizedTransform
}.

Definition M (A : Type) : Type := world -> result A * world.

Definition ret {A} (a : A) : M A := fun w => (Ok a, w).

Definition raise {A} (e : exn) : M A := fun w => (Raise e, w).

Definition bind {A B} (m : M A) (k : A -> M B) : M B :=
  fun w =>
    match m w with
    | (Ok a, w') => k a w'
    | (Raise e, w') => (Raise e, w')
    end.

Definition lift {A} (r : result A) : M A := fun w => (r, w).

(** [try: body / except <caught> as e: handler e / else: orelse a] *)
Definition try_except {A B} (body : M A) (caught : exn -> bool)
    (handler : exn -> M B) (orelse : A -> M B) : M B :=
  fun w =>
    match body w with
    | (Ok a, w') => orelse a w'
    | (Raise e, w') => if caught e then handler e w' else (Raise e, w')
    end.

Definition add_call (w : world) (c : call) : world :=
  mkWorld (table w) (calls w ++ [c]) (now_Chicago w)
          (transform_func_slot w).

(** A call that leaves the tuner is written down, whatever comes out
    of it. *)
Definition external {A} (c : call) (r : result A) : M A :=
  fun w => (r, add_call w c).
End Tuner.

Declare Scope tuner_scope.
Delimit Scope tuner_scope with tuner.
Notation "x <- m ;; k" := (bind m (fun x => k))
  (at level 61, m at next level, right associativity) : tuner_scope.
Notation "m ;;; k" := (bind m (fun _ => k))
  (at level 61, right associativity) : tuner_scope.
Local Open Scope tuner_scope.

(** ** The decorators and [ParametrizedTransform.bind_args] *)

(** What the decorators are applied to: a [ParametrizedTransform] or a
    plain function. *)
Inductive decorated : Type :=
| Already (pt : ParametrizedTransform)
| Plain (fn : callable).

(** [einsum_arg.__call__] *)
Definition einsum_arg_call (self : einsum_arg.t) (fn : decorated)
  : ParametrizedTransform :=
  match fn with
  | Already pt =>
      mkParametrizedTransform (transform pt)
        (self :: einsum_derivative_args pt) (transform_params pt)
  | Plain f => mkParametrizedTransform (cache f) [self] []
  end.

(** [transform_param.__call__] *)
Definition transform_param_call (self : transform_param.t) (fn : decorated)
  : ParametrizedTransform :=
  match fn with
  | Already pt =>
      mkParametrizedTransform (transform pt)
        (einsum_derivative_args pt) (self :: transform_params pt)
  | Plain f => mkParametrizedTransform (cache f) [] [self]
  end.

(** Passing [**extra] after the keywords [kw] in one call: a name given
    twice is a [TypeError]. *)
Fixpoint merge_kwargs (kw extra : dict) : result dict :=
  match extra with
  | [] => Ok kw
  | (k, v) :: rest =>
      if dict_contains kw k then
        Raise (TypeError ("functools.partial() got multiple values for "
                          ++ "keyword argument '" ++ k ++ "'"))
      else merge_kwargs (kw ++ [(k, v)])%list rest
  end.

Section Bind.
Context {E : External}.

(** The dict comprehension
    [{arg.var_name: arg.func(einsum) for arg in args}], continued from
    the dict [acc] built so far. *)
Fixpoint derivative_kwargs (einsum : FusedEinsum)
    (args : list einsum_arg.t) (acc : dict) : M dict :=
  match args with
  | [] => ret acc
  | arg :: rest =>
      v <- external (call_einsum_arg (einsum_arg.func arg) einsum)
                    (call_func (einsum_arg.func arg) einsum) ;;
      derivative_kwargs einsum rest
        (dict_set acc (einsum_arg.var_name arg) v)
  end.

(** [ParametrizedTransform.bind_args] *)
Definition bind_args (self : ParametrizedTransform) (einsum : FusedEinsum)
    (transform_args : dict) : M partial.t :=
  derived <- derivative_kwargs einsum (einsum_derivative_args self) [] ;;
  kw <- lift (merge_kwargs derived transform_args) ;;
  ret (partial.mk (transform self) kw).
End Bind.

(** ** The transform-space loader *)

Section Loader.
Context {E : External}.

(** [module.<name>] *)
Definition getattr (spec : ModuleSpec) (m : module) (name : string)
  : M pyobj :=
  match dict_get m name with
  | Some o => ret o
  | None =>
      raise (AttributeError ("module '" ++ spec_name spec
                             ++ "' has no attribute '" ++ name ++ "'"))
  end.

(** [get_transform_func_from_module_path].  The last [match] is the
    [isinstance] test followed by [assert callable(transform_obj)]: of the
    objects that are not a [ParametrizedTransform], the functions are the
    callable ones. *)
Definition get_transform_func_from_module_path (module_path : string)
  : M ParametrizedTransform :=
  let (_, filename) := os_path_split module_path in
  if negb (endswith filename ".py") then raise AssertionError
  else
    let not_imported :=
      RuntimeError ("Could not import 'transform' function from "
                    ++ module_path ++ ".") in
    match spec_from_file_location (drop_last 3 filename) module_path with
    | None => raise not_imported
    | Some spec =>
        if negb (spec_has_loader spec) then raise not_imported
        else
          transform_module <-
            external (call_exec_module spec) (exec_module spec) ;;
          transform_obj <- getattr spec transform_module "transform" ;;
          match transform_obj with
          | PyParametrizedTransform pt => ret pt
          | PyCallable f => ret (mkParametrizedTransform f [] [])
          | _ => raise AssertionError
          end
    end.
End Loader.

(** ** [OpentunerTuner] *)

Section OpentunerTuner.
Context {E : External}.

(** The attributes [__init__] sets. *)
Record OpentunerTuner : Type := mkOpentunerTuner {
  einsum : FusedEinsum;
  cl_ctx : cl_Context;
  module_path : string;
  long_dim_length : Z;
  db_path : string
}.

Definition OpentunerTuner_init (einsum : FusedEinsum) (cl_ctx : cl_Context)
    (module_path : string) (long_dim_length : Z) (db_path : string)
  : OpentunerTuner :=
  mkOpentunerTuner (canonicalize_einsum einsum) cl_ctx module_path
                   long_dim_length db_path.

(** [transform_space_id] *)
Definition transform_space_id (self : OpentunerTuner) : string :=
  let (dirpath, filepath) := os_path_split (module_path self) in
  if String.eqb dirpath _get_impls_path then filepath
  else module_path self.

(** [conn]: the device's table is created when it is not there. *)
Definition conn : M unit :=
  fun w =>
    match table w with
    | Some _ => (Ok tt, w)
    | None =>
        (Ok tt, mkWorld (Some []) (calls w) (now_Chicago w)
                        (transform_func_slot w))
    end.

(** [cursor.execute("SELECT ... WHERE (...)")] followed by
    [cursor.fetchall()]: the rows that satisfy the condition, oldest
    first. *)
Definition select_where (cond : row.t -> bool) : M (list row.t) :=
  fun w =>
    match table w with
    | Some rows => (Ok (filter cond rows), w)
    | None => (Raise (OtherError "OperationalError" "no such table"), w)
    end.

(** [cursor.execute("INSERT INTO ... VALUES (...)")] followed by
    [conn.commit()]: the row goes last.  The statement gives no [ID]; the
    database chooses it ([AUTOINCREMENT]: one more than the largest ever
    used), which is the number of rows plus one for a table that was only
    ever appended to from empty.  Nothing established below depends on the
    value of the [ID]. *)
Definition insert_row (mk_row : Z -> row.t) : M unit :=
  fun w =>
    match table w with
    | Some rows =>
        let id := Z.of_nat (List.length rows) + 1 in
        (Ok tt,
         mkWorld (Some (rows ++ [mk_row id])%list)
                 (calls w) (now_Chicago w) (transform_func_slot w))
    | None => (Raise (OtherError "OperationalError" "no such table"), w)
    end.

Definition get_now : M string := fun w => (Ok (now_Chicago w), w).

(** The [WHERE] clause of [query_from_db]. *)
Definition query_cond (self : OpentunerTuner)
    (transform_params_str : string) (r : row.t) : bool :=
  String.eqb (row.subscripts r) (get_subscripts (einsum self))
  && String.eqb (row.index_to_length r) (dump_index_to_length (einsum self))
  && String.eqb (row.use_matrix r) (dump_use_matrix (einsum self))
  && String.eqb (row.value_to_dtype r) (dump_value_to_dtype (einsum self))
  && String.eqb (row.transform_params r) transform_params_str
  && String.eqb (row.giga_op_info r)
       (dump_op_info (einsum self) (long_dim_length self)).

(** [query_from_db] *)
Definition query_from_db (self : OpentunerTuner) (parameters : dict)
  : M float :=
  conn ;;;
  transform_params_str <-
    lift (json_dumps_sort_keys float_repr parameters) ;;
  stored_results <- select_where (query_cond self transform_params_str) ;;
  match map row.runtime_in_sec stored_results with
  | [] => raise ConfigurationNotInDBError
  | first :: rest => ret (py_min first rest)
  end.

(** [record_into_db] *)
Definition record_into_db (self : OpentunerTuner) (runtime : float)
    (parameters : dict) : M unit :=
  conn ;;;
  transform_params_str <-
    lift (json_dumps_sort_keys float_repr parameters) ;;
  timestamp <- get_now ;;
  insert_row (fun id =>
    row.mk id
      (get_subscripts (einsum self))
      (dump_index_to_length (einsum self))
      (dump_use_matrix (einsum self))
      (dump_value_to_dtype (einsum self))
      (transform_space_id self)
      transform_params_str
      runtime
      (dump_cl_version (cl_ctx self))
      (dump_op_info (einsum self) (long_dim_length self))
      timestamp).

(** The [WHERE] clause of [seed_configurations]. *)
Definition seed_cond (self : OpentunerTuner) (r : row.t) : bool :=
  String.eqb (row.transform_id r) (transform_space_id self)
  && String.eqb (row.subscripts r) (get_subscripts (einsum self))
  && String.eqb (row.index_to_length r) (dump_index_to_length (einsum self))
  && String.eqb (row.use_matrix r) (dump_use_matrix (einsum self))
  && String.eqb (row.value_to_dtype r) (dump_value_to_dtype (einsum self))
  && String.eqb (row.giga_op_info r)
       (dump_op_info (einsum self) (long_dim_length self)).

(** [seed_configurations] up to the [json.loads] of each string it
    selected. *)
Definition seed_configurations_selected (self : OpentunerTuner)
  : M (list string) :=
  conn ;;;
  rows <- select_where (seed_cond self) ;;
  ret (map row.transform_params rows).

(** The cached property [transform_func]. *)
Definition transform_func (self : OpentunerTuner)
  : M ParametrizedTransform :=
  fun w =>
    match transform_func_slot w with
    | Some pt => (Ok pt, w)
    | None =>
        match get_transform_func_from_module_path (module_path self) w with
        | (Ok pt, w') =>
            (Ok pt, mkWorld (table w') (calls w') (now_Chicago w') (Some pt))
        | (Raise e, w') => (Raise e, w')
        end
    end.

Definition is_ConfigurationNotInDBError (e : exn) : bool :=
  match e with ConfigurationNotInDBError => true | _ => false end.

Definition is_InvalidParameterError (e : exn) : bool :=
  match e with InvalidParameterError _ => true | _ => false end.

(** [run], on the configuration [cfg] of the desired result. *)
Definition run (self : OpentunerTuner) (cfg : dict) : M Result :=
  try_except (query_from_db self cfg) is_ConfigurationNotInDBError
    (fun _ =>
       tf <- transform_func self ;;
       bound_transform <- bind_args tf (einsum self) cfg ;;
       try_except
         (external (call_roofline (einsum self) bound_transform)
            (stringify_comparison_vs_roofline (einsum self) bound_transform
               (cl_ctx self) (long_dim_length self)))
         is_InvalidParameterError
         (fun _ => ret (mkResult Inf))
         (fun _ =>
            runtime <-
              external (call_timeit (einsum self) bound_transform)
                (timeit (einsum self) (cl_ctx self) bound_transform
                   (long_dim_length self)) ;;
            record_into_db self runtime cfg ;;;
            ret (mkResult runtime)))
    (fun result => ret (mkResult result)).

(** [autotune], over [OpentunerTuner.main] of the search library, which
    builds the tuner and runs the search. *)
Section Autotune.
Variable main :
  option Z -> FusedEinsum -> cl_Context -> string -> string -> Z -> M unit.

Definition autotune (einsum : FusedEinsum) (module_path : string)
    (cl_ctx : cl_Context) (db_path : option string)
    (long_dim_length : Z) (stop_after : option Z) : M unit :=
  if negb (os_path_isabs module_path) then
    raise (ValueError "autotune expects an absolute path for the module")
  else
    let db_path :=
      match db_path with Some p => p | None => DEFAULT_DB end in
    main stop_after einsum cl_ctx module_path db_path long_dim_length.
End Autotune.
End OpentunerTuner.

(** ** Notions the properties are stated with *)

Section Notions.
Context {E : External}.

(** The value the derived-argument bindings give the keyword [k]: that of
    the last binding of this name. *)
Fixpoint derived_value (einsum : FusedEinsum) (args : list einsum_arg.t)
    (k : string) : option pyobj :=
  match args with
  | [] => None
  | arg :: rest =>
      match derived_value einsum rest k with
      | Some v => Some v
      | None =>
          if String.eqb (einsum_arg.var_name arg) k then
            match call_func (einsum_arg.func arg) einsum with
            | Ok v => Some v
            | Raise _ => None
            end
          else None
      end
  end.

(** Every function of the derived-argument bindings answers on this
    problem instance. *)
Definition all_succeed (einsum : FusedEinsum) (args : list einsum_arg.t)
  : Prop :=
  forall arg, In arg args ->
    exists v, call_func (einsum_arg.func arg) einsum = Ok v.

Definition add_calls (w : world) (l : list call) : world :=
  mkWorld (table w) (calls w ++ l) (now_Chicago w) (transform_func_slot w).

(** The calls one evaluation of the derived arguments makes. *)
Definition derivative_calls (einsum : FusedEinsum)
    (args : list einsum_arg.t) : list call :=
  map (fun arg => call_einsum_arg (einsum_arg.func arg) einsum) args.

(** How often the function [f] was called on a problem instance that
    satisfies [P]. *)
Definition invocations (f : string) (P : FusedEinsum -> bool)
    (l : list call) : nat :=
  List.length
    (filter (fun c =>
               match c with
               | call_einsum_arg g e => String.eqb g f && P e
               | _ => false
               end) l).

(** The row [record_into_db] writes. *)
Definition recorded_row (self : OpentunerTuner) (runtime : float)
    (transform_params_str timestamp : string) (id : Z) : row.t :=
  row.mk id
    (get_subscripts (einsum self))
    (dump_index_to_length (einsum self))
    (dump_use_matrix (einsum self))
    (dump_value_to_dtype (einsum self))
    (transform_space_id self)
    transform_params_str
    runtime
    (dump_cl_version (cl_ctx self))
    (dump_op_info (einsum self) (long_dim_length self))
    timestamp.

(** The rows of the table, none when there is no table yet. *)
Definition rows_of (w : world) : list row.t :=
  match table w with Some rows => rows | None => [] end.

Definition is_measurement (c : call) : bool :=
  match c with
  | call_roofline _ _ | call_timeit _ _ => true
  | _ => false
  end.

(** The path resolves to a loadable module, whose attributes are [m]. *)
Definition loads_as (module_path : string) (m : module) : Prop :=
  let filename := snd (os_path_split module_path) in
  endswith filename ".py" = true /\
  exists spec,
    spec_from_file_location (drop_last 3 filename) module_path = Some spec
    /\ spec_has_loader spec = true
    /\ exec_module spec = Ok m.
End Notions.

(** ** Stacks of decorators *)

Inductive decorator : Type :=
| with_einsum_arg (a : einsum_arg.t)
| with_transform_param (p : transform_param.t).

Definition decorator_call (d : decorator) (fn : decorated)
  : ParametrizedTransform :=
  match d with
  | with_einsum_arg a => einsum_arg_call a fn
  | with_transform_param p => transform_param_call p fn
  end.

(** [@d1 ... @dn def fn]: the decorator next to the function is applied
    first, the topmost one last. *)
Fixpoint decorate (ds : list decorator) (fn : callable) : decorated :=
  match ds with
  | [] => Plain fn
  | d :: rest => Already (decorator_call d (decorate rest fn))
  end.

(** The [einsum_arg]s of a stack, top to bottom, and its
    [transform_param]s. *)
Definition einsum_args_of (ds : list decorator) : list einsum_arg.t :=
  flat_map (fun d => match d with
                     | with_einsum_arg a => [a]
                     | with_transform_param _ => []
                     end) ds.

Definition transform_params_of (ds : list decorator)
  : list transform_param.t :=
  flat_map (fun d => match d with
                     | with_einsum_arg _ => []
                     | with_transform_param p => [p]
                     end) ds.

(** ** The search space *)

(** What the function of a [transform_param] returns: a tuning parameter or
    some other object. *)
Inductive param_space : Type :=
| a_TuningParameter (p : TuningParameter)
| another_object (o : pyobj).

(** [opentuner.IntegerParameter(name, low, high)] and
    [BooleanParameter(name)], as the manipulator collects them. *)
Inductive opentuner_parameter : Type :=
| IntegerParameter (name : string) (low high : pyobj)
| BooleanParameter (name : string).

Definition parameter_name (p : opentuner_parameter) : string :=
  match p with
  | IntegerParameter name _ _ => name
  | BooleanParameter name => name
  end.

Section Manipulator.
Context {E : External}.

(** The functions the [transform_param] decorators were given, and the
    [repr] of a [transform_param] (it prints its function). *)
Variable call_param_func : string -> FusedEinsum -> result param_space.
Variable repr_transform_param : transform_param.t -> string.

(** The loop of [manipulator] over the transform's parameters, the
    parameters added so far being [acc]. *)
Fixpoint add_parameters (einsum : FusedEinsum)
    (params : list transform_param.t) (acc : list opentuner_parameter)
  : result (list opentuner_parameter) :=
  match params with
  | [] => Ok acc
  | param :: rest =>
      match call_param_func (transform_param.func param) einsum with
      | Raise e => Raise e
      | Ok (a_TuningParameter (IntParameter_ p)) =>
          add_parameters einsum rest
            (acc ++ [IntegerParameter (transform_param.var_name param)
                       (IntParameter.low p) (IntParameter.high p)])%list
      | Ok (a_TuningParameter BoolParameter) =>
          add_parameters einsum rest
            (acc ++ [BooleanParameter (transform_param.var_name param)])%list
      | Ok (another_object _) =>
          Raise (OtherError "NotImplementedError"
                   ("Parameter: " ++ repr_transform_param param ++ "."))
      end
  end.

(** [manipulator] *)
Definition manipulator (self : OpentunerTuner)
  : M (list opentuner_parameter) :=
  tf <- transform_func self ;;
  lift (add_parameters (einsum self) (transform_params tf) []).

(** The parameter of the search space that a [transform_param] stands
    for on a problem instance. *)
Definition declared_as (einsum : FusedEinsum) (param : transform_param.t)
    (op : opentuner_parameter) : Prop :=
  match call_param_func (transform_param.func param) einsum with
  | Ok (a_TuningParameter (IntParameter_ p)) =>
      op = IntegerParameter (transform_param.var_name param)
             (IntParameter.low p) (IntParameter.high p)
  | Ok (a_TuningParameter BoolParameter) =>
      op = BooleanParameter (transform_param.var_name param)
  | _ => False
  end.
End Manipulator.

(** ** Further notions *)

(** The objects [json.dumps] has no encoding for. *)
Definition not_json_serializable (o : pyobj) : bool :=
  match o with
  | NpInteger _ | PyCallable _ | PyParametrizedTransform _ => true
  | _ => false
  end.

(** The string has no ["/"]. *)
Fixpoint no_sep (s : string) : bool :=
  match s with
  | EmptyString => true
  | String c r => negb (c =? sep)%char && no_sep r
  end.

(** ** A concrete setting *)

Module Demo.
Fixpoint file_at (files : list (string * module)) (path : string)
  : option module :=
  match files with
  | [] => None
  | (p, m) :: rest => if String.eqb p path then Some m else file_at rest path
  end.

(** Problem instances are their subscripts, the context is a single
    device, the derived-argument function ["ndim"] answers 3, the two
    measurement routines answer as given and the files are the given
    ones. *)
Definition external_ (roofline : result string) (timing : result float)
    (files : list (string * module)) : External := {|
  FusedEinsum := string;
  cl_Context := unit;
  canonicalize_einsum := fun e => e;
  get_subscripts := fun e => e;
  dump_index_to_length := fun _ => "{e: 10, i: 35}";
  dump_use_matrix := fun _ => "[[u, v]]";
  dump_value_to_dtype := fun _ => "{u: float64}";
  dump_op_info := fun _ n => NilZero.string_of_int (Z.to_int n);
  dump_cl_version := fun _ => "OpenCL 3.0";
  DEFAULT_DB := "/var/feinsum/default.db";
  _get_impls_path := "/opt/feinsum/tuning/impls";
  float_repr := fun _ => "0.0";
  call_func := fun f _ =>
    if String.eqb f "ndim" then Ok (PyInt 3)
    else Raise (OtherError "NameError" f);
  stringify_comparison_vs_roofline := fun _ _ _ _ => roofline;
  timeit := fun _ _ _ _ => timing;
  spec_from_file_location := fun name path =>
    Some (mkModuleSpec name path true);
  exec_module := fun spec =>
    match file_at files (spec_origin spec) with
    | Some m => Ok m
    | None => Raise (OtherError "FileNotFoundError" (spec_origin spec))
    end
|}.

Definition raw_transform : callable := Fn "transform".

(** A transform with one derived argument and one tunable parameter. *)
Definition tiled : ParametrizedTransform :=
  einsum_arg_call (einsum_arg.mk "ndim" "ndim")
    (Already (transform_param_call (transform_param.mk "tile" "tile_range")
                (Plain raw_transform))).

Definition files : list (string * module) :=
  [ ("/opt/spaces/tiled.py", [("transform", PyParametrizedTransform tiled)]);
    ("/opt/spaces/raw.py", [("transform", PyCallable raw_transform)]);
    ("/opt/spaces/empty.py", [("helper", PyCallable (Fn "helper"))]);
    ("/opt/spaces/wrong.py", [("transform", PyInt 7)]) ].

(** Both measurement routines succeed. *)
Definition healthy : External :=
  external_ (Ok "roofline: 40%") (Ok (Finite (21 # 10))) files.


(** The roofline comparison reports an invalid parameter. *)
Definition early_invalid : External :=
  external_ (Raise (InvalidParameterError "tile")) (Ok (Finite (21 # 10)))
            files.

(** The roofline comparison fails for a reason of its own. *)
Definition broken : External :=
  external_ (Raise (OtherError "RuntimeError" "clBuildProgram failed"))
            (Ok (Finite (21 # 10))) files.

(** The roofline comparison succeeds and the timing fails for a reason
    of its own. *)
Definition slow_device : External :=
  external_ (Ok "roofline: 40%")
            (Raise (OtherError "RuntimeError" "device lost")) files.

(** A search that proposes nothing. *)
Definition idle_main (E : External) (stop_after : option Z)
    (einsum : @FusedEinsum E) (cl_ctx : @cl_Context E)
    (module_path db_path : string) (long_dim_length : Z) : @M E unit :=
  ret tt.

Definition cfg : dict := [("tile", PyInt 4)].

Definition tuner (E : External) (e : @FusedEinsum E) (c : @cl_Context E)
    (path : string) : @OpentunerTuner E :=
  OpentunerTuner_init e c path 100000 "/var/feinsum/default.db".

Definition empty_world (E : External) : @world E :=
  mkWorld None [] "2023_01_01_120000" None.

(** Tuners of one problem instance on one device, for two transform
    spaces and under the different measurement routines. *)
Definition tiled_tuner : @OpentunerTuner healthy :=
  tuner healthy "ep,pi->ei" tt "/opt/spaces/tiled.py".

Definition raw_tuner : @OpentunerTuner healthy :=
  tuner healthy "ep,pi->ei" tt "/opt/spaces/raw.py".


Definition early_invalid_tuner : @OpentunerTuner early_invalid :=
  tuner early_invalid "ep,pi->ei" tt "/opt/spaces/tiled.py".

Definition broken_tuner : @OpentunerTuner broken :=
  tuner broken "ep,pi->ei" tt "/opt/spaces/tiled.py".

Definition slow_device_tuner : @OpentunerTuner slow_device :=
  tuner slow_device "ep,pi->ei" tt "/opt/spaces/tiled.py".

(** What [tiled] is bound to for [cfg]. *)
Definition bound : partial.t :=
  partial.mk (cache raw_transform) [("ndim", PyInt 3); ("tile", PyInt 4)].

(** The state after one record of [cfg] at 3.0 seconds for [tiled]. *)
Definition seeded : @world healthy :=
  snd (record_into_db tiled_tuner (Finite 3) cfg (empty_world healthy)).

(** The state after one record of [cfg] at 1.7 seconds for the other
    transform space. *)
Definition seeded_by_raw : @world healthy :=
  snd (record_into_db raw_tuner (Finite (17 # 10)) cfg
         (empty_world healthy)).

(** One assignment, its keys inserted in two orders. *)
Definition a_then_b : dict := [("a", PyInt 1); ("b", PyBool true)].
Definition b_then_a : dict := [("b", PyBool true); ("a", PyInt 1)].

(** A stack of three decorators. *)
Definition stack : list decorator :=
  [ with_einsum_arg (einsum_arg.mk "ndim" "ndim");
    with_transform_param (transform_param.mk "tile" "tile_range");
    with_transform_param (transform_param.mk "prefetch" "flag") ].

(** The functions of the tunable parameters: a range from 1 to the length
    of the subscripts, a flag, and one that returns no tuning parameter. *)
Definition param_func (f : string) (e : string) : result param_space :=
  if String.eqb f "tile_range" then
    Ok (a_TuningParameter
          (IntParameter_ (IntParameter.mk (PyInt 1)
                            (PyInt (Z.of_nat (String.length e))))))
  else if String.eqb f "flag" then Ok (a_TuningParameter BoolParameter)
  else Ok (another_object PyNone).

Definition param_repr (p : transform_param.t) : string :=
  "transform_param(var_name='" ++ transform_param.var_name p ++ "')".

(** A transform whose second derived argument has a function that
    raises. *)
Definition failing : ParametrizedTransform :=
  mkParametrizedTransform (cache raw_transform)
    [ einsum_arg.mk "ndim" "ndim"; einsum_arg.mk "nelem" "bogus";
      einsum_arg.mk "ndof" "ndim" ] [].

(** A transform whose second tunable parameter has a function that
    returns no tuning parameter, and a state in which it is loaded. *)
Definition odd : ParametrizedTransform :=
  mkParametrizedTransform (cache raw_transform) []
    [ transform_param.mk "tile" "tile_range";
      transform_param.mk "mystery" "nothing";
      transform_param.mk "prefetch" "flag" ].

Definition odd_loaded : @world healthy :=
  mkWorld None [] "2023_01_01_120000" (Some odd).

(** A tuner for a file that is not there. *)
Definition missing_tuner : @OpentunerTuner healthy :=
  tuner healthy "ep,pi->ei" tt "/opt/spaces/missing.py".

(** A tuner for a module of the implementations directory. *)
Definition impl_tuner : @OpentunerTuner healthy :=
  tuner healthy "ep,pi->ei" tt "/opt/feinsum/tuning/impls/ifj_fe_fej_fi.py".
End Demo.

(** * Properties *)

(** ** Tuning parameters *)

(** C5. Constructing an [IntParameter] with a bound that is not of an
    integer class fails with a [ValueError] whose message names that bound
    ([low] first when both fail the check); with two bounds of an integer
    class the construction succeeds and the object holds exactly the pair
    [(low, high)]. *)
Theorem IntParameter_init_validates_bounds :
  forall low high : pyobj,
    (isinstance_INT_CLASSES low = false ->
     IntParameter.init low high =
       Raise (ValueError "low must be an integer")) /\
    (isinstance_INT_CLASSES low = true ->
     isinstance_INT_CLASSES high = false ->
     IntParameter.init low high =
       Raise (ValueError "high must be an integer")) /\
    (isinstance_INT_CLASSES low = true ->
     isinstance_INT_CLASSES high = true ->
     exists p,
       IntParameter.init low high = Ok p /\
       (IntParameter.low p, IntParameter.high p) = (low, high)).
Proof.
  intros low high. unfold IntParameter.init.
  repeat split.
  - intros ->. reflexivity.
  - intros -> ->. reflexivity.
  - intros -> ->. simpl. eexists. split; reflexivity.
Qed.

Lemma IntParameter_init_validates_bounds_witness :
  IntParameter.init (PyStr "8") (PyInt 16) =
    Raise (ValueError "low must be an integer") /\
  IntParameter.init (PyInt 8) PyNone =
    Raise (ValueError "high must be an integer") /\
  exists p,
    IntParameter.init (PyInt 8) (PyInt 16) = Ok p /\
    (IntParameter.low p, IntParameter.high p) = (PyInt 8, PyInt 16).
Proof.
  split; [| split].
  - apply (IntParameter_init_validates_bounds (PyStr "8") (PyInt 16)).
    reflexivity.
  - apply (IntParameter_init_validates_bounds (PyInt 8) PyNone);
      reflexivity.
  - apply (IntParameter_init_validates_bounds (PyInt 8) (PyInt 16));
      reflexivity.
Defined.

(** The construction never compares its two bounds: the pair [(5, 3)] is
    accepted although [5 <= 3] fails. *)
Lemma IntParameter_init_accepts_reversed_bounds :
  exists p,
    IntParameter.init (PyInt 5) (PyInt 3) = Ok p /\ ~ bounds_ordered p.
Proof.
  eexists. split; [reflexivity |].
  unfold bounds_ordered. simpl. lia.
Qed.

(** C6, as the code has it. A successfully constructed [IntParameter] has
    two bounds of an integer class, stored as they were given; nothing is
    established about their order. *)
Theorem IntParameter_init_ok_integer_bounds :
  forall (low high : pyobj) (p : IntParameter.t),
    IntParameter.init low high = Ok p ->
    isinstance_INT_CLASSES (IntParameter.low p) = true /\
    isinstance_INT_CLASSES (IntParameter.high p) = true /\
    IntParameter.low p = low /\ IntParameter.high p = high.
Proof.
  intros low high p. unfold IntParameter.init.
  destruct (isinstance_INT_CLASSES low) eqn:Hl; simpl; [| discriminate].
  destruct (isinstance_INT_CLASSES high) eqn:Hh; simpl; [| discriminate].
  intros H. injection H as <-. simpl. auto.
Qed.

Lemma IntParameter_init_ok_integer_bounds_witness :
  isinstance_INT_CLASSES (PyInt 5) = true /\
  isinstance_INT_CLASSES (PyInt 3) = true /\
  PyInt 5 = PyInt 5 /\ PyInt 3 = PyInt 3.
Proof.
  apply (IntParameter_init_ok_integer_bounds (PyInt 5) (PyInt 3)
           (IntParameter.mk (PyInt 5) (PyInt 3))).
  reflexivity.
Defined.

(** ** Dicts and keyword arguments *)

Lemma dict_get_set (d : dict) (k k' : string) (v : pyobj) :
  dict_get (dict_set d k v) k' =
    if String.eqb k k' then Some v else dict_get d k'.
Proof.
  induction d as [| [k0 v0] d IH]; simpl.
  - reflexivity.
  - destruct (String.eqb k0 k) eqn:E0; simpl.
    + apply String.eqb_eq in E0. subst k0.
      destruct (String.eqb k k'); reflexivity.
    + rewrite IH. destruct (String.eqb k0 k') eqn:E1; [| reflexivity].
      apply String.eqb_eq in E1. subst k0. rewrite String.eqb_sym, E0.
      reflexivity.
Qed.

Lemma dict_get_app (d1 d2 : dict) (k : string) :
  dict_get (d1 ++ d2)%list k =
    match dict_get d1 k with Some v => Some v | None => dict_get d2 k end.
Proof.
  induction d1 as [| [k0 v0] d1 IH]; simpl; [reflexivity |].
  destruct (String.eqb k0 k); [reflexivity | apply IH].
Qed.

Lemma dict_get_None_iff (d : dict) (k : string) :
  dict_get d k = None <-> ~ In k (map fst d).
Proof.
  induction d as [| [k0 v0] d IH]; simpl.
  - tauto.
  - destruct (String.eqb k0 k) eqn:E0.
    + apply String.eqb_eq in E0. split; [discriminate | tauto].
    + apply String.eqb_neq in E0. rewrite IH. tauto.
Qed.

Lemma dict_contains_false_iff (d : dict) (k : string) :
  dict_contains d k = false <-> dict_get d k = None.
Proof.
  unfold dict_contains. destruct (dict_get d k); split; congruence.
Qed.

Lemma dict_contains_app (d1 d2 : dict) (k : string) :
  dict_contains (d1 ++ d2)%list k = dict_contains d1 k || dict_contains d2 k.
Proof.
  unfold dict_contains. rewrite dict_get_app.
  destruct (dict_get d1 k); reflexivity.
Qed.

Lemma merge_kwargs_disjoint (extra kw : dict) :
  dict_wf extra ->
  (forall k, In k (map fst extra) -> dict_contains kw k = false) ->
  merge_kwargs kw extra = Ok (kw ++ extra)%list.
Proof.
  revert kw. induction extra as [| [k v] rest IH]; intros kw Hwf Hdis; simpl.
  - rewrite app_nil_r. reflexivity.
  - rewrite (Hdis k) by (simpl; auto).
    inversion Hwf as [| ? ? Hnotin Hwf']; subst.
    rewrite IH.
    + rewrite <- app_assoc. reflexivity.
    + exact Hwf'.
    + intros k' Hin. rewrite dict_contains_app.
      rewrite (Hdis k') by (simpl; auto). simpl.
      unfold dict_contains. simpl.
      destruct (String.eqb k k') eqn:Ek; [| reflexivity].
      apply String.eqb_eq in Ek. subst k'. contradiction.
Qed.

Lemma merge_kwargs_collision (extra kw : dict) (k : string) :
  In k (map fst extra) -> dict_contains kw k = true ->
  exists msg, merge_kwargs kw extra = Raise (TypeError msg).
Proof.
  revert kw. induction extra as [| [k0 v0] rest IH]; intros kw Hin Hc; simpl.
  - destruct Hin.
  - destruct (dict_contains kw k0) eqn:E0; [eexists; reflexivity |].
    simpl in Hin. destruct Hin as [Heq | Hin]; [congruence |].
    apply IH; [exact Hin |].
    rewrite dict_contains_app, Hc. reflexivity.
Qed.

(** ** Binding a parametrized transform *)

Section BindProperties.
Context {E : External}.

Lemma add_calls_nil (w : world) : add_calls w [] = w.
Proof.
  destruct w. unfold add_calls. simpl. rewrite app_nil_r. reflexivity.
Qed.

Lemma add_calls_cons (w : world) (c : call) (l : list call) :
  add_calls (add_call w c) l = add_calls w (c :: l).
Proof.
  unfold add_calls, add_call. simpl. rewrite <- app_assoc. reflexivity.
Qed.

Lemma add_calls_app (w : world) (l1 l2 : list call) :
  add_calls (add_calls w l1) l2 = add_calls w (l1 ++ l2).
Proof.
  unfold add_calls. simpl. rewrite <- app_assoc. reflexivity.
Qed.

(** When every function answers, the comprehension makes one call per
    binding, in order, and builds the same dict from every state. *)
Lemma derivative_kwargs_succeeds (einsum : FusedEinsum) :
  forall (args : list einsum_arg.t) (acc : dict),
    all_succeed einsum args ->
    exists d,
      (forall w, derivative_kwargs einsum args acc w =
                   (Ok d, add_calls w (derivative_calls einsum args))) /\
      (forall k, dict_get d k =
                   match derived_value einsum args k with
                   | Some v => Some v
                   | None => dict_get acc k
                   end).
Proof.
  induction args as [| arg rest IH]; intros acc Hall.
  - exists acc. split; [| reflexivity].
    intros w. simpl. rewrite add_calls_nil. reflexivity.
  - destruct (Hall arg (or_introl eq_refl)) as [v Hv].
    destruct (IH (dict_set acc (einsum_arg.var_name arg) v)) as [d [Hrun Hget]].
    { intros a Ha. apply Hall. right. exact Ha. }
    exists d. split.
    + intros w. simpl. unfold bind at 1, external. rewrite Hv.
      rewrite Hrun, add_calls_cons. reflexivity.
    + intros k. rewrite Hget. simpl.
      destruct (derived_value einsum rest k); [reflexivity |].
      rewrite dict_get_set, Hv.
      destruct (String.eqb (einsum_arg.var_name arg) k); reflexivity.
Qed.

Lemma derivative_kwargs_ok_inv (einsum : FusedEinsum) :
  forall (args : list einsum_arg.t) (acc : dict) (w w1 : world) (d : dict),
    derivative_kwargs einsum args acc w = (Ok d, w1) ->
    all_succeed einsum args.
Proof.
  induction args as [| arg rest IH]; intros acc w w1 d H a Ha.
  - destruct Ha.
  - simpl in H. unfold bind at 1, external in H.
    destruct (call_func (einsum_arg.func arg) einsum) as [v |] eqn:Hv;
      [| discriminate].
    destruct Ha as [<- | Ha]; [eauto |].
    eapply IH; eassumption.
Qed.

Lemma derived_value_Some_iff (einsum : FusedEinsum)
    (args : list einsum_arg.t) (k : string) :
  all_succeed einsum args ->
  (derived_value einsum args k <> None <->
   exists arg, In arg args /\ einsum_arg.var_name arg = k).
Proof.
  induction args as [| arg rest IH]; intros Hall; simpl.
  - split; [congruence | intros [a [[] _]]].
  - assert (Hrest : all_succeed einsum rest)
      by (intros a Ha; apply Hall; right; exact Ha).
    specialize (IH Hrest).
    destruct (derived_value einsum rest k) eqn:Hd.
    + split; [| congruence]. intros _.
      destruct IH as [IH _]. destruct IH as [a [Ha Hk]]; [congruence |].
      exists a. split; [right |]; assumption.
    + destruct (String.eqb (einsum_arg.var_name arg) k) eqn:Ek.
      * apply String.eqb_eq in Ek.
        destruct (Hall arg (or_introl eq_refl)) as [v ->].
        split; [| congruence]. intros _. exists arg. auto.
      * apply String.eqb_neq in Ek. split; [congruence |].
        intros [a [[<- | Ha] Hk]]; [contradiction |].
        destruct IH as [_ IH]. exfalso. apply IH; [eauto | reflexivity].
Qed.
End BindProperties.

Section BindTheorems.
Context {E : External}.

Lemma bind_args_unfold (self : ParametrizedTransform)
    (einsum : FusedEinsum) (transform_args d : dict) (w : world) :
  (forall w, derivative_kwargs einsum (einsum_derivative_args self) [] w =
               (Ok d, add_calls w (derivative_calls einsum
                                     (einsum_derivative_args self)))) ->
  bind_args self einsum transform_args w =
    (match merge_kwargs d transform_args with
     | Ok kw => Ok (partial.mk (transform self) kw)
     | Raise e => Raise e
     end,
     add_calls w (derivative_calls einsum (einsum_derivative_args self))).
Proof.
  intros Hrun. unfold bind_args, bind, lift, ret. rewrite Hrun.
  destruct (merge_kwargs d transform_args); reflexivity.
Qed.

(** C7, as the code has it. When every derived-argument function answers
    and the tunable values are a dict: if no tunable value has the name of
    a derived-argument binding, [bind_args] returns the partial
    application of the underlying callable to the keywords of both, each
    tunable name with the caller's value and each derived name with the
    value its (last) binding computes; if a tunable value has the name of
    a derived-argument binding, [bind_args] raises a [TypeError].  Either
    way the functions were called once per binding. *)
Theorem bind_args_merges_disjoint_keywords :
  forall (self : ParametrizedTransform) (einsum : FusedEinsum)
         (transform_args : dict) (w : world),
    dict_wf transform_args ->
    all_succeed einsum (einsum_derivative_args self) ->
    let w' :=
      add_calls w (derivative_calls einsum (einsum_derivative_args self)) in
    ((forall arg, In arg (einsum_derivative_args self) ->
        dict_contains transform_args (einsum_arg.var_name arg) = false) ->
     exists kw,
       bind_args self einsum transform_args w =
         (Ok (partial.mk (transform self) kw), w') /\
       forall k,
         dict_get kw k =
           match dict_get transform_args k with
           | Some v => Some v
           | None =>
               derived_value einsum (einsum_derivative_args self) k
           end) /\
    ((exists arg, In arg (einsum_derivative_args self) /\
        dict_contains transform_args (einsum_arg.var_name arg) = true) ->
     exists msg,
       bind_args self einsum transform_args w = (Raise (TypeError msg), w')).
Proof.
  intros self einsum targs w Hwf Hall w'.
  destruct (derivative_kwargs_succeeds einsum (einsum_derivative_args self)
              [] Hall) as [d [Hrun Hget]].
  assert (Hd : forall k,
             dict_get d k =
               derived_value einsum (einsum_derivative_args self) k).
  { intros k. rewrite Hget. simpl.
    destruct (derived_value einsum (einsum_derivative_args self) k);
      reflexivity. }
  pose proof (bind_args_unfold self einsum targs d w Hrun) as Hbind.
  fold w' in Hbind. split.
  - intros Hdis.
    assert (Hsep : forall k, In k (map fst targs) ->
                             dict_contains d k = false).
    { intros k Hin. apply dict_contains_false_iff.
      destruct (dict_get d k) eqn:Hk; [exfalso | reflexivity].
      assert (Hnn : derived_value einsum (einsum_derivative_args self) k
                    <> None) by (rewrite <- Hd; congruence).
      apply derived_value_Some_iff in Hnn; [| exact Hall].
      destruct Hnn as [arg [Harg <-]].
      specialize (Hdis arg Harg).
      apply dict_contains_false_iff, dict_get_None_iff in Hdis.
      contradiction. }
    rewrite (merge_kwargs_disjoint targs d Hwf Hsep) in Hbind.
    eexists. split; [exact Hbind |].
    intros k. rewrite dict_get_app, Hd.
    destruct (dict_get targs k) eqn:Ht.
    + assert (Hin : In k (map fst targs)).
      { destruct (in_dec string_dec k (map fst targs)) as [Hi | Hn];
          [exact Hi |].
        apply dict_get_None_iff in Hn. congruence. }
      specialize (Hsep k Hin).
      apply dict_contains_false_iff in Hsep. rewrite Hd in Hsep.
      rewrite Hsep. reflexivity.
    + destruct (derived_value einsum (einsum_derivative_args self) k);
        reflexivity.
  - intros [arg [Harg Hc]].
    destruct (merge_kwargs_collision targs d (einsum_arg.var_name arg))
      as [msg Hmsg].
    + destruct (in_dec string_dec (einsum_arg.var_name arg) (map fst targs))
        as [Hi | Hn]; [exact Hi |].
      apply dict_get_None_iff, dict_contains_false_iff in Hn. congruence.
    + destruct (dict_contains d (einsum_arg.var_name arg)) eqn:Hdc;
        [reflexivity |].
      apply dict_contains_false_iff in Hdc. rewrite Hd in Hdc.
      exfalso.
      apply (proj2 (derived_value_Some_iff einsum
                      (einsum_derivative_args self)
                      (einsum_arg.var_name arg) Hall)); eauto.
    + exists msg. rewrite Hmsg in Hbind. exact Hbind.
Qed.

(** C8, as the code has it. A [bind_args] that returns calls the
    function of every derived-argument binding once more, in order, whatever
    was called before: a second [bind_args] with the same problem instance
    and tunable values returns the same partial application and makes the
    same calls again, so each function has then been called twice per
    binding.  The transform is a value the binds only read. *)
Theorem bind_args_calls_functions_on_every_bind :
  forall (self : ParametrizedTransform) (einsum : FusedEinsum)
         (transform_args : dict) (w w1 : world) (p : partial.t),
    bind_args self einsum transform_args w = (Ok p, w1) ->
    let made := derivative_calls einsum (einsum_derivative_args self) in
    w1 = add_calls w made /\
    bind_args self einsum transform_args w1 =
      (Ok p, add_calls w (made ++ made)) /\
    forall f P,
      invocations f P (calls (add_calls w (made ++ made))) =
        (invocations f P (calls w) + 2 * invocations f P made)%nat.
Proof.
  intros self einsum targs w w1 p H made.
  assert (Hall : all_succeed einsum (einsum_derivative_args self)).
  { unfold bind_args, bind at 1 in H.
    destruct (derivative_kwargs einsum (einsum_derivative_args self) [] w)
      as [[d |] w0] eqn:Hd; [| discriminate].
    eapply derivative_kwargs_ok_inv. exact Hd. }
  destruct (derivative_kwargs_succeeds einsum (einsum_derivative_args self)
              [] Hall) as [d [Hrun _]].
  pose proof (bind_args_unfold self einsum targs d w Hrun) as Hb.
  rewrite H in Hb. injection Hb as Hp Hw. fold made in Hw.
  split; [exact Hw |]. split.
  - rewrite (bind_args_unfold self einsum targs d w1 Hrun).
    fold made. rewrite <- Hp. subst w1. rewrite add_calls_app. reflexivity.
  - intros f P. unfold invocations, add_calls. simpl.
    rewrite !filter_app, !length_app. lia.
Qed.
End BindTheorems.

(** A tunable value named like a derived argument: the bind does not go
    through with the caller's value, it raises. *)
Lemma bind_args_name_collision_raises :
  In (einsum_arg.mk "ndim" "ndim") (einsum_derivative_args Demo.tiled) /\
  fst (bind_args (E := Demo.healthy) Demo.tiled "ep,pi->ei"
         [("ndim", PyInt 5)] (Demo.empty_world Demo.healthy)) =
    Raise (TypeError ("functools.partial() got multiple values for "
                      ++ "keyword argument 'ndim'")).
Proof.
  split; [left; reflexivity | reflexivity].
Qed.

Lemma Demo_tiled_all_succeed :
  all_succeed (E := Demo.healthy) "ep,pi->ei"
    (einsum_derivative_args Demo.tiled).
Proof.
  intros arg [<- | []]. exists (PyInt 3). reflexivity.
Defined.

Lemma bind_args_merges_disjoint_keywords_witness :
  (exists kw,
     bind_args (E := Demo.healthy) Demo.tiled "ep,pi->ei" [("tile", PyInt 4)]
       (Demo.empty_world Demo.healthy) =
       (Ok (partial.mk (transform Demo.tiled) kw),
        add_calls (Demo.empty_world Demo.healthy)
          [call_einsum_arg (E := Demo.healthy) "ndim" "ep,pi->ei"]) /\
     dict_get kw "tile" = Some (PyInt 4) /\
     dict_get kw "ndim" = Some (PyInt 3)) /\
  (exists msg,
     bind_args (E := Demo.healthy) Demo.tiled "ep,pi->ei" [("ndim", PyInt 5)]
       (Demo.empty_world Demo.healthy) =
       (Raise (TypeError msg),
        add_calls (Demo.empty_world Demo.healthy)
          [call_einsum_arg (E := Demo.healthy) "ndim" "ep,pi->ei"])).
Proof.
  split.
  - destruct (bind_args_merges_disjoint_keywords (E := Demo.healthy)
                Demo.tiled "ep,pi->ei" [("tile", PyInt 4)]
                (Demo.empty_world Demo.healthy)) as [Hok _].
    + repeat constructor. simpl. tauto.
    + exact Demo_tiled_all_succeed.
    + destruct Hok as [kw [Hb Hk]].
      * intros arg [<- | []]. reflexivity.
      * exists kw. split; [exact Hb |].
        split; [apply (Hk "tile") | apply (Hk "ndim")].
  - destruct (bind_args_merges_disjoint_keywords (E := Demo.healthy)
                Demo.tiled "ep,pi->ei" [("ndim", PyInt 5)]
                (Demo.empty_world Demo.healthy)) as [_ Hraise].
    + repeat constructor. simpl. tauto.
    + exact Demo_tiled_all_succeed.
    + apply Hraise. eexists. split; [left; reflexivity | reflexivity].
Defined.

(** Two binds of the same transform, problem instance and tunable values:
    the function of the derived argument has been called twice on that
    problem instance, not once. *)
Lemma bind_args_twice_calls_function_twice :
  exists p w1 w2,
    bind_args (E := Demo.healthy) Demo.tiled "ep,pi->ei" [("tile", PyInt 4)]
      (Demo.empty_world Demo.healthy) = (Ok p, w1) /\
    bind_args (E := Demo.healthy) Demo.tiled "ep,pi->ei" [("tile", PyInt 4)]
      w1 = (Ok p, w2) /\
    invocations (E := Demo.healthy) "ndim" (String.eqb "ep,pi->ei")
      (calls w2) = 2%nat.
Proof.
  do 3 eexists. split; [reflexivity |]. split; reflexivity.
Qed.

Lemma bind_args_calls_functions_on_every_bind_witness :
  bind_args (E := Demo.healthy) Demo.tiled "ep,pi->ei" [("tile", PyInt 4)]
    (add_calls (Demo.empty_world Demo.healthy)
       [call_einsum_arg (E := Demo.healthy) "ndim" "ep,pi->ei"]) =
    (Ok (partial.mk (cache Demo.raw_transform)
           [("ndim", PyInt 3); ("tile", PyInt 4)]),
     add_calls (Demo.empty_world Demo.healthy)
       [call_einsum_arg (E := Demo.healthy) "ndim" "ep,pi->ei";
        call_einsum_arg (E := Demo.healthy) "ndim" "ep,pi->ei"]) /\
  invocations (E := Demo.healthy) "ndim" (String.eqb "ep,pi->ei")
    (calls (add_calls (Demo.empty_world Demo.healthy)
              [call_einsum_arg (E := Demo.healthy) "ndim" "ep,pi->ei";
               call_einsum_arg (E := Demo.healthy) "ndim" "ep,pi->ei"])) =
    (0 + 2 * 1)%nat.
Proof.
  destruct (bind_args_calls_functions_on_every_bind
              (E := Demo.healthy) Demo.tiled "ep,pi->ei"
              [("tile", PyInt 4)] (Demo.empty_world Demo.healthy) _ _ eq_refl)
    as [_ [Hsecond Hcount]].
  split; [exact Hsecond |].
  exact (Hcount "ndim" (String.eqb "ep,pi->ei")).
Defined.

(** ** The transform-space loader *)

Section LoaderTheorems.
Context {E : External}.

Lemma loader_on_loaded_module (module_path : string) (m : module)
    (w : world) :
  loads_as module_path m ->
  exists spec,
    get_transform_func_from_module_path module_path w =
      match dict_get m "transform" with
      | Some (PyParametrizedTransform pt) =>
          (Ok pt, add_call w (call_exec_module spec))
      | Some (PyCallable f) =>
          (Ok (mkParametrizedTransform f [] []),
           add_call w (call_exec_module spec))
      | Some _ => (Raise AssertionError, add_call w (call_exec_module spec))
      | None =>
          (Raise (AttributeError ("module '" ++ spec_name spec
                                  ++ "' has no attribute 'transform'")),
           add_call w (call_exec_module spec))
      end.
Proof.
  unfold loads_as, get_transform_func_from_module_path.
  destruct (os_path_split module_path) as [dirname filename]. simpl.
  intros [Hpy [spec [Hspec [Hloader Hexec]]]].
  exists spec. rewrite Hpy, Hspec, Hloader. simpl.
  unfold bind at 1, external. rewrite Hexec.
  unfold bind, getattr.
  destruct (dict_get m "transform") as [[] |]; reflexivity.
Qed.

(** C9. When the path resolves to a loadable module: a [transform]
    attribute that is a [ParametrizedTransform] is returned as it is, and
    one that is a plain function is returned wrapped, with no
    derived-argument and no tunable-parameter binding.  The loader raises
    when the path does not resolve to a loadable module, when the module
    has no [transform] attribute ([AttributeError]) and when the
    attribute is neither of the two ([AssertionError]). *)
Theorem get_transform_func_from_module_path_outcomes :
  forall (module_path : string) (w : world),
    (forall m pt,
       loads_as module_path m ->
       dict_get m "transform" = Some (PyParametrizedTransform pt) ->
       fst (get_transform_func_from_module_path module_path w) = Ok pt) /\
    (forall m f,
       loads_as module_path m ->
       dict_get m "transform" = Some (PyCallable f) ->
       fst (get_transform_func_from_module_path module_path w) =
         Ok (mkParametrizedTransform f [] [])) /\
    ((~ exists m, loads_as module_path m) ->
     exists e,
       fst (get_transform_func_from_module_path module_path w) = Raise e) /\
    (forall m,
       loads_as module_path m ->
       dict_get m "transform" = None ->
       exists msg,
         fst (get_transform_func_from_module_path module_path w) =
           Raise (AttributeError msg)) /\
    (forall m o,
       loads_as module_path m ->
       dict_get m "transform" = Some o ->
       (forall pt, o <> PyParametrizedTransform pt) ->
       (forall f, o <> PyCallable f) ->
       fst (get_transform_func_from_module_path module_path w) =
         Raise AssertionError).
Proof.
  intros module_path w. repeat split.
  - intros m pt Hm Ht.
    destruct (loader_on_loaded_module module_path m w Hm) as [spec ->].
    rewrite Ht. reflexivity.
  - intros m f Hm Ht.
    destruct (loader_on_loaded_module module_path m w Hm) as [spec ->].
    rewrite Ht. reflexivity.
  - intros Hnone.
    unfold get_transform_func_from_module_path.
    unfold loads_as in Hnone.
    destruct (os_path_split module_path) as [dirname filename].
    simpl in Hnone.
    destruct (endswith filename ".py") eqn:Hpy; simpl;
      [| eexists; reflexivity].
    destruct (spec_from_file_location (drop_last 3 filename) module_path)
      as [spec |] eqn:Hspec; [| eexists; reflexivity].
    destruct (spec_has_loader spec) eqn:Hloader; simpl;
      [| eexists; reflexivity].
    unfold bind at 1, external.
    destruct (exec_module spec) as [m | e] eqn:Hexec;
      [| eexists; reflexivity].
    exfalso. apply Hnone. exists m. split; [reflexivity |].
    exists spec. auto.
  - intros m Hm Ht.
    destruct (loader_on_loaded_module module_path m w Hm) as [spec ->].
    rewrite Ht. eexists. reflexivity.
  - intros m o Hm Ht Hnpt Hnf.
    destruct (loader_on_loaded_module module_path m w Hm) as [spec ->].
    rewrite Ht.
    destruct o; try reflexivity;
      [exfalso; eapply Hnf | exfalso; eapply Hnpt]; reflexivity.
Qed.
End LoaderTheorems.

Ltac demo_loads :=
  unfold loads_as; cbv zeta; split;
  [reflexivity | eexists; split; [reflexivity | split; reflexivity]].

Lemma get_transform_func_from_module_path_outcomes_witness :
  fst (get_transform_func_from_module_path (E := Demo.healthy)
         "/opt/spaces/tiled.py" (Demo.empty_world Demo.healthy)) =
    Ok Demo.tiled /\
  fst (get_transform_func_from_module_path (E := Demo.healthy)
         "/opt/spaces/raw.py" (Demo.empty_world Demo.healthy)) =
    Ok (mkParametrizedTransform Demo.raw_transform [] []) /\
  (exists e,
     fst (get_transform_func_from_module_path (E := Demo.healthy)
            "/opt/spaces/missing.py" (Demo.empty_world Demo.healthy)) =
       Raise e) /\
  (exists msg,
     fst (get_transform_func_from_module_path (E := Demo.healthy)
            "/opt/spaces/empty.py" (Demo.empty_world Demo.healthy)) =
       Raise (AttributeError msg)) /\
  fst (get_transform_func_from_module_path (E := Demo.healthy)
         "/opt/spaces/wrong.py" (Demo.empty_world Demo.healthy)) =
    Raise AssertionError.
Proof.
  split; [| split; [| split; [| split]]].
  - eapply (get_transform_func_from_module_path_outcomes (E := Demo.healthy)).
    + demo_loads.
    + reflexivity.
  - eapply (get_transform_func_from_module_path_outcomes (E := Demo.healthy)).
    + demo_loads.
    + reflexivity.
  - apply (get_transform_func_from_module_path_outcomes (E := Demo.healthy)).
    intros [m [_ [spec [Hspec [_ Hexec]]]]].
    simpl in Hspec. injection Hspec as <-. simpl in Hexec. discriminate.
  - eapply (get_transform_func_from_module_path_outcomes (E := Demo.healthy)).
    + demo_loads.
    + reflexivity.
  - eapply (get_transform_func_from_module_path_outcomes (E := Demo.healthy)).
    + demo_loads.
    + reflexivity.
    + discriminate.
    + discriminate.
Defined.

(** ** The search driver *)

Section DriverTheorems.
Context {E : External}.

Lemma conn_calls (w : world) :
  fst (conn w) = Ok tt /\ calls (snd (conn w)) = calls w /\
  table (snd (conn w)) =
    Some (match table w with Some rows => rows | None => [] end).
Proof.
  unfold conn. destruct (table w) eqn:Ht; simpl; auto.
Qed.

(** A lookup leaves everything but a missing table as it was. *)
Lemma query_from_db_world (self : OpentunerTuner) (cfg : dict) (w : world) :
  snd (query_from_db self cfg w) = snd (conn w).
Proof.
  unfold query_from_db, bind, lift, select_where.
  destruct (conn_calls w) as [Hok [_ Ht]].
  destruct (conn w) as [[[] |] w0]; simpl in *; [| discriminate].
  destruct (json_dumps_sort_keys float_repr cfg); [| reflexivity].
  rewrite Ht.
  destruct (map row.runtime_in_sec _); reflexivity.
Qed.

(** C2. When the lookup of a candidate succeeds, [run] returns the cached
    runtime as the result reported to the search, no call leaves the tuner
    (neither the roofline comparison nor the timing is invoked) and no row
    is added to the table. *)
Theorem run_reports_cached_runtime_without_measuring :
  forall (self : OpentunerTuner) (cfg : dict) (w w' : world)
         (result : float),
    query_from_db self cfg w = (Ok result, w') ->
    run self cfg w = (Ok (mkResult result), w') /\
    calls w' = calls w /\
    filter is_measurement (calls w') = filter is_measurement (calls w) /\
    table w' = Some (match table w with Some rows => rows | None => [] end).
Proof.
  intros self cfg w w' result H.
  assert (Hw : w' = snd (conn w)).
  { rewrite <- query_from_db_world with (self := self) (cfg := cfg).
    rewrite H. reflexivity. }
  destruct (conn_calls w) as [_ [Hc Ht]].
  split.
  - unfold run, try_except. rewrite H. reflexivity.
  - subst w'. rewrite Hc. auto.
Qed.

(** For a candidate that reaches the measurement (the lookup missed, the
    transform was loaded and bound): when the roofline comparison raises
    [InvalidParameterError], [run] returns the infinite cost and records
    nothing; every other error of the roofline comparison, and every
    error of the timing that is not an [InvalidParameterError], leaves
    [run] as it is. *)
Lemma run_handles_measurement_errors :
  forall (self : OpentunerTuner) (cfg : dict) (w w0 w1 w2 : world)
         (tf : ParametrizedTransform) (b : partial.t),
    query_from_db self cfg w = (Raise ConfigurationNotInDBError, w0) ->
    transform_func self w0 = (Ok tf, w1) ->
    bind_args tf (einsum self) cfg w1 = (Ok b, w2) ->
    let roofline :=
      stringify_comparison_vs_roofline (einsum self) b (cl_ctx self)
        (long_dim_length self) in
    let timing :=
      timeit (einsum self) (cl_ctx self) b (long_dim_length self) in
    let w3 := add_call w2 (call_roofline (einsum self) b) in
    let w4 := add_call w3 (call_timeit (einsum self) b) in
    (forall msg,
       roofline = Raise (InvalidParameterError msg) ->
       run self cfg w = (Ok (mkResult Inf), w3)) /\
    (forall e,
       roofline = Raise e -> is_InvalidParameterError e = false ->
       run self cfg w = (Raise e, w3)) /\
    (forall s e,
       roofline = Ok s -> timing = Raise e ->
       is_InvalidParameterError e = false ->
       run self cfg w = (Raise e, w4)) /\
    table w3 = table w2 /\ table w4 = table w2.
Proof.
  intros self cfg w w0 w1 w2 tf b Hq Htf Hb roofline timing w3 w4.
  assert (Hrun : run self cfg w =
            match roofline with
            | Ok _ =>
                bind (external (call_timeit (einsum self) b) timing)
                     (fun runtime =>
                        bind (record_into_db self runtime cfg)
                             (fun _ => ret (mkResult runtime))) w3
            | Raise e =>
                if is_InvalidParameterError e then (Ok (mkResult Inf), w3)
                else (Raise e, w3)
            end).
  { unfold run. unfold try_except at 1. rewrite Hq. simpl.
    unfold bind at 1. rewrite Htf.
    unfold bind at 1. rewrite Hb.
    unfold try_except, external. fold roofline. fold timing. fold w3.
    destruct roofline as [s | e]; reflexivity. }
  repeat split.
  - intros msg Hr. rewrite Hrun, Hr. reflexivity.
  - intros e Hr He. rewrite Hrun, Hr, He. reflexivity.
  - intros s e Hr Ht _. rewrite Hrun, Hr.
    unfold bind at 1, external. rewrite Ht. reflexivity.
Qed.

(** C10. [autotune] on a path that is not absolute raises [ValueError]
    at once: the search library's [main] is not entered and the state is
    the one it was called in (nothing loaded, no table touched, no
    call made). *)
Theorem autotune_rejects_relative_module_path :
  forall (main : option Z -> FusedEinsum -> cl_Context -> string ->
                 string -> Z -> M unit)
         (einsum : FusedEinsum) (module_path : string)
         (cl_ctx : cl_Context) (db_path : option string)
         (long_dim_length : Z) (stop_after : option Z) (w : world),
    os_path_isabs module_path = false ->
    autotune main einsum module_path cl_ctx db_path long_dim_length
             stop_after w =
      (Raise (ValueError "autotune expects an absolute path for the module"),
       w).
Proof.
  intros main einsum module_path cl_ctx db_path ldl stop_after w H.
  unfold autotune. rewrite H. reflexivity.
Qed.
End DriverTheorems.

Lemma run_reports_cached_runtime_without_measuring_witness :
  run Demo.tiled_tuner Demo.cfg Demo.seeded =
    (Ok (mkResult (Finite 3)), Demo.seeded) /\
  calls Demo.seeded = [] /\
  filter is_measurement (calls Demo.seeded) = [].
Proof.
  destruct (run_reports_cached_runtime_without_measuring
              (E := Demo.healthy) Demo.tiled_tuner Demo.cfg Demo.seeded
              Demo.seeded (Finite 3) eq_refl) as [Hrun [Hcalls [Hmeas _]]].
  split; [exact Hrun |]. split; [exact Hcalls | exact Hmeas].
Defined.


(** The three handled cases at work: an invalid parameter reported by
    the roofline comparison, another error of it, and another error of
    the timing. *)
Example run_handles_measurement_errors_at_work :
  fst (run Demo.early_invalid_tuner Demo.cfg
         (Demo.empty_world Demo.early_invalid)) = Ok (mkResult Inf) /\
  fst (run Demo.broken_tuner Demo.cfg (Demo.empty_world Demo.broken)) =
    Raise (OtherError "RuntimeError" "clBuildProgram failed") /\
  fst (run Demo.slow_device_tuner Demo.cfg
         (Demo.empty_world Demo.slow_device)) =
    Raise (OtherError "RuntimeError" "device lost").
Proof.
  split; [| split].
  - destruct (run_handles_measurement_errors (E := Demo.early_invalid)
                Demo.early_invalid_tuner Demo.cfg
                (Demo.empty_world Demo.early_invalid)
                _ _ _ _ _ eq_refl eq_refl eq_refl) as [H _].
    rewrite (H "tile" eq_refl). reflexivity.
  - destruct (run_handles_measurement_errors (E := Demo.broken)
                Demo.broken_tuner Demo.cfg (Demo.empty_world Demo.broken)
                _ _ _ _ _ eq_refl eq_refl eq_refl) as [_ [H _]].
    rewrite (H _ eq_refl eq_refl). reflexivity.
  - destruct (run_handles_measurement_errors (E := Demo.slow_device)
                Demo.slow_device_tuner Demo.cfg
                (Demo.empty_world Demo.slow_device)
                _ _ _ _ _ eq_refl eq_refl eq_refl) as [_ [_ [H _]]].
    rewrite (H _ _ eq_refl eq_refl eq_refl). reflexivity.
Qed.

Lemma autotune_rejects_relative_module_path_witness :
  os_path_isabs "spaces/tiled.py" = false /\
  autotune (E := Demo.healthy) (Demo.idle_main Demo.healthy) "ep,pi->ei"
    "spaces/tiled.py" tt None 100000 None (Demo.empty_world Demo.healthy) =
    (Raise (ValueError "autotune expects an absolute path for the module"),
     Demo.empty_world Demo.healthy).
Proof.
  split; [reflexivity |].
  apply (autotune_rejects_relative_module_path (E := Demo.healthy)).
  reflexivity.
Defined.

(** ** The order of keys and the serialized parameters *)

Lemma ascii_compare_refl (c : ascii) : Ascii.compare c c = Eq.
Proof. unfold Ascii.compare. apply N.compare_refl. Qed.

Lemma ascii_compare_lt_trans (a b c : ascii) :
  Ascii.compare a b = Lt -> Ascii.compare b c = Lt -> Ascii.compare a c = Lt.
Proof.
  unfold Ascii.compare. rewrite !N.compare_lt_iff. apply N.lt_trans.
Qed.

Lemma string_compare_refl (s : string) : String.compare s s = Eq.
Proof.
  induction s as [| c s IH]; simpl; [reflexivity |].
  rewrite ascii_compare_refl. exact IH.
Qed.

Lemma string_compare_lt_trans :
  forall a b c : string,
    String.compare a b = Lt -> String.compare b c = Lt ->
    String.compare a c = Lt.
Proof.
  induction a as [| x a IH]; intros [| y b] [| z c]; simpl;
    try congruence.
  destruct (Ascii.compare x y) eqn:Hxy; try discriminate.
  - apply Ascii.compare_eq_iff in Hxy. subst y.
    destruct (Ascii.compare x z); try congruence. apply IH.
  - intros _. destruct (Ascii.compare y z) eqn:Hyz; try discriminate.
    + apply Ascii.compare_eq_iff in Hyz. subst z. rewrite Hxy. reflexivity.
    + intros _. rewrite (ascii_compare_lt_trans x y z Hxy Hyz). reflexivity.
Qed.

Lemma string_ltb_irrefl (s : string) : String.ltb s s = false.
Proof. unfold String.ltb. rewrite string_compare_refl. reflexivity. Qed.

Lemma string_ltb_trans (a b c : string) :
  String.ltb a b = true -> String.ltb b c = true -> String.ltb a c = true.
Proof.
  unfold String.ltb.
  destruct (String.compare a b) eqn:Hab; try discriminate.
  destruct (String.compare b c) eqn:Hbc; try discriminate.
  rewrite (string_compare_lt_trans a b c Hab Hbc). reflexivity.
Qed.

Lemma string_ltb_total (a b : string) :
  a <> b -> String.ltb a b = false -> String.ltb b a = true.
Proof.
  unfold String.ltb. intros Hne.
  rewrite (String.compare_antisym b a).
  destruct (String.compare a b) eqn:Hab; simpl; try congruence.
  apply String.compare_eq_iff in Hab. contradiction.
Qed.

Lemma In_insert_item (x y : string * pyobj) (l : dict) :
  In y (insert_item x l) <-> y = x \/ In y l.
Proof.
  induction l as [| z l IH]; simpl.
  - intuition congruence.
  - destruct (String.ltb (fst z) (fst x)); simpl; rewrite ?IH;
      intuition congruence.
Qed.

Lemma In_sorted_items (y : string * pyobj) (d : dict) :
  In y (sorted_items d) <-> In y d.
Proof.
  induction d as [| x d IH]; simpl; [tauto |].
  rewrite In_insert_item, IH. intuition congruence.
Qed.

Lemma insert_item_sorted (x : string * pyobj) (l : dict) :
  StronglySorted key_lt l -> ~ In (fst x) (map fst l) ->
  StronglySorted key_lt (insert_item x l).
Proof.
  induction 1 as [| z l Hs IH Hz]; intros Hnew; simpl.
  - repeat constructor.
  - simpl in Hnew.
    destruct (String.ltb (fst z) (fst x)) eqn:Hzx.
    + constructor; [apply IH; tauto |].
      apply Forall_forall. intros y Hy. apply In_insert_item in Hy.
      destruct Hy as [-> | Hy]; [exact Hzx |].
      rewrite Forall_forall in Hz. apply Hz. exact Hy.
    + assert (Hxz : key_lt x z).
      { apply string_ltb_total; [| exact Hzx]. intros Heq. apply Hnew.
        left. exact Heq. }
      constructor; [constructor; assumption |].
      constructor; [exact Hxz |].
      rewrite Forall_forall in *. intros y Hy.
      eapply string_ltb_trans; [exact Hxz | apply Hz; exact Hy].
Qed.

Lemma sorted_items_sorted (d : dict) :
  dict_wf d -> StronglySorted key_lt (sorted_items d).
Proof.
  unfold dict_wf. induction d as [| x d IH]; simpl; intros Hwf.
  - constructor.
  - inversion Hwf as [| ? ? Hnotin Hwf']; subst.
    apply insert_item_sorted; [apply IH; exact Hwf' |].
    intros Hin. apply Hnotin.
    apply in_map_iff in Hin. destruct Hin as [y [Hy Hin]].
    apply (proj1 (In_sorted_items y d)) in Hin.
    rewrite <- Hy. apply in_map. exact Hin.
Qed.

(** Two lists in strictly increasing order with the same items are the
    same list. *)
Lemma sorted_same_items_eq :
  forall l1 l2 : dict,
    StronglySorted key_lt l1 -> StronglySorted key_lt l2 ->
    (forall y, In y l1 <-> In y l2) -> l1 = l2.
Proof.
  induction l1 as [| a l1 IH]; intros [| b l2] H1 H2 Hsame.
  - reflexivity.
  - exfalso. apply (Hsame b). left. reflexivity.
  - exfalso. apply (Hsame a). left. reflexivity.
  - inversion H1 as [| ? ? Hs1 Ha]; subst.
    inversion H2 as [| ? ? Hs2 Hb]; subst.
    rewrite Forall_forall in Ha, Hb.
    assert (Hab : a = b).
    { destruct (proj1 (Hsame a) (or_introl eq_refl)) as [Hba | Hin2];
        [congruence |].
      destruct (proj2 (Hsame b) (or_introl eq_refl)) as [Hab | Hin1];
        [congruence |].
      exfalso.
      pose proof (string_ltb_trans _ _ _ (Ha b Hin1) (Hb a Hin2)) as Hcyc.
      rewrite string_ltb_irrefl in Hcyc. discriminate. }
    subst b. f_equal. apply IH; [assumption | assumption |].
    intros y. split; intros Hy.
    + destruct (proj1 (Hsame y) (or_intror Hy)) as [<- | Hin]; [| exact Hin].
      exfalso. pose proof (Ha a Hy) as Hc. unfold key_lt in Hc.
      rewrite string_ltb_irrefl in Hc. discriminate.
    + destruct (proj2 (Hsame y) (or_intror Hy)) as [<- | Hin]; [| exact Hin].
      exfalso. pose proof (Hb a Hy) as Hc. unfold key_lt in Hc.
      rewrite string_ltb_irrefl in Hc. discriminate.
Qed.

Lemma dict_get_Some_iff (d : dict) (k : string) (v : pyobj) :
  dict_wf d -> (dict_get d k = Some v <-> In (k, v) d).
Proof.
  unfold dict_wf. induction d as [| [k0 v0] d IH]; simpl; intros Hwf.
  - split; [discriminate | tauto].
  - inversion Hwf as [| ? ? Hnotin Hwf']; subst.
    destruct (String.eqb k0 k) eqn:E0.
    + apply String.eqb_eq in E0. subst k0. split.
      * intros H. injection H as <-. left. reflexivity.
      * intros [H | H]; [congruence |].
        exfalso. apply Hnotin. apply (in_map fst) in H. exact H.
    + apply String.eqb_neq in E0. rewrite (IH Hwf'). split.
      * tauto.
      * intros [H | H]; [congruence | exact H].
Qed.

(** Dicts that are equal as mappings have the same sorted items, whatever
    the order their keys were inserted in. *)
Lemma sorted_items_order_independent (d1 d2 : dict) :
  dict_wf d1 -> dict_wf d2 ->
  (forall k, dict_get d1 k = dict_get d2 k) ->
  sorted_items d1 = sorted_items d2.
Proof.
  intros Hwf1 Hwf2 Hsame.
  apply sorted_same_items_eq; try (apply sorted_items_sorted; assumption).
  intros [k v]. rewrite !In_sorted_items.
  rewrite <- (dict_get_Some_iff d1 k v Hwf1).
  rewrite <- (dict_get_Some_iff d2 k v Hwf2).
  rewrite Hsame. tauto.
Qed.

(** ** The minimum of the stored runtimes *)

Lemma float_ltb_irrefl (x : float) : float_ltb x x = false.
Proof.
  destruct x as [q |]; simpl; [| reflexivity].
  destruct (Qlt_le_dec q q) as [H | H]; [| reflexivity].
  exfalso. exact (Qlt_irrefl q H).
Qed.

Lemma float_ltb_lt_nlt (a b c : float) :
  float_ltb a b = true -> float_ltb c b = false -> float_ltb a c = true.
Proof.
  destruct a as [qa |], b as [qb |], c as [qc |]; simpl; try congruence.
  destruct (Qlt_le_dec qa qb) as [Hab | Hab]; [| discriminate].
  destruct (Qlt_le_dec qc qb) as [Hcb | Hcb]; [discriminate |].
  intros _ _. destruct (Qlt_le_dec qa qc) as [Hac | Hac]; [reflexivity |].
  exfalso. apply (Qlt_irrefl qa).
  eapply Qlt_le_trans; [exact Hab |]. eapply Qle_trans; eassumption.
Qed.

Lemma float_ltb_asym (a b : float) :
  float_ltb a b = true -> float_ltb b a = false.
Proof.
  destruct a as [qa |], b as [qb |]; simpl; try congruence.
  destruct (Qlt_le_dec qa qb) as [Hab | Hab]; [| discriminate].
  destruct (Qlt_le_dec qb qa) as [Hba | Hba]; [| reflexivity].
  exfalso. apply (Qlt_irrefl qa). eapply Qlt_trans; eassumption.
Qed.

Lemma float_ltb_trans (a b c : float) :
  float_ltb a b = true -> float_ltb b c = true -> float_ltb a c = true.
Proof.
  intros Hab Hbc. eapply float_ltb_lt_nlt; [exact Hab |].
  apply float_ltb_asym. exact Hbc.
Qed.

(** [min] returns one of the items, and no item is smaller. *)
Lemma py_min_is_minimum :
  forall (rest : list float) (first : float),
    In (py_min first rest) (first :: rest) /\
    forall y, In y (first :: rest) -> float_ltb y (py_min first rest) = false.
Proof.
  unfold py_min.
  induction rest as [| x rest IH]; intros first; simpl.
  - split; [left; reflexivity |].
    intros y [<- | []]. apply float_ltb_irrefl.
  - destruct (IH (if float_ltb x first then x else first)) as [Hin Hlow].
    set (m := fold_left
                (fun best x0 => if float_ltb x0 best then x0 else best)
                rest (if float_ltb x first then x else first)) in *.
    split.
    + destruct Hin as [Hm | Hm]; [| right; right; exact Hm].
      destruct (float_ltb x first); rewrite <- Hm; [right |]; left;
        reflexivity.
    + intros y Hy.
      destruct (float_ltb x first) eqn:Hxf.
      * destruct Hy as [<- | Hy]; [| apply Hlow; exact Hy].
        destruct (float_ltb first m) eqn:Hfm; [| reflexivity].
        rewrite <- (Hlow x (or_introl eq_refl)). symmetry.
        eapply float_ltb_trans; eassumption.
      * destruct Hy as [<- | [<- | Hy]];
          [apply Hlow; left; reflexivity | | apply Hlow; right; exact Hy].
        destruct (float_ltb x m) eqn:Hxm; [| reflexivity].
        rewrite <- Hxf. symmetry.
        eapply float_ltb_lt_nlt; [exact Hxm |].
        apply Hlow. left. reflexivity.
Qed.

(** ** The result cache *)

Section CacheTheorems.
Context {E : External}.

(** What a lookup computes, in terms of the rows of the table. *)
Lemma query_from_db_eval (self : OpentunerTuner) (cfg : dict) (w : world)
    (s : string) :
  json_dumps_sort_keys float_repr cfg = Ok s ->
  query_from_db self cfg w =
    (match map row.runtime_in_sec
             (filter (query_cond self s) (rows_of w)) with
     | [] => Raise ConfigurationNotInDBError
     | first :: rest => Ok (py_min first rest)
     end,
     snd (conn w)).
Proof.
  intros Hs. unfold query_from_db, bind, lift, select_where, rows_of, conn.
  rewrite Hs.
  destruct (table w) as [rows |] eqn:Ht; simpl; rewrite ?Ht.
  - destruct (map row.runtime_in_sec _); reflexivity.
  - reflexivity.
Qed.

(** What an insertion does to the table. *)
Lemma record_into_db_eval (self : OpentunerTuner) (runtime : float)
    (cfg : dict) (w : world) :
  record_into_db self runtime cfg w =
    match json_dumps_sort_keys float_repr cfg with
    | Ok s =>
        (Ok tt,
         mkWorld
           (Some (rows_of w ++
                  [recorded_row self runtime s (now_Chicago w)
                     (Z.of_nat (List.length (rows_of w)) + 1)])%list)
           (calls w) (now_Chicago w) (transform_func_slot w))
    | Raise e => (Raise e, snd (conn w))
    end.
Proof.
  unfold record_into_db, bind, lift, get_now, insert_row, rows_of, conn,
    recorded_row.
  destruct (table w) as [rows |] eqn:Ht; simpl;
    destruct (json_dumps_sort_keys float_repr cfg); simpl; rewrite ?Ht;
    reflexivity.
Qed.

Lemma query_cond_recorded_row (self : OpentunerTuner) (runtime : float)
    (s ts : string) (id : Z) :
  query_cond self s (recorded_row self runtime s ts id) = true.
Proof.
  unfold query_cond, recorded_row. simpl.
  rewrite !String.eqb_refl. reflexivity.
Qed.

(** C4. Two parameter assignments that are equal as mappings are
    serialized to the same string, whatever the order of their keys; so
    after a record was inserted under one of them, the lookup under the
    other finds it: it returns what the lookup under the first returns, a
    runtime that is at most the inserted one, and the inserted one itself
    when no row matched before. *)
Theorem lookup_independent_of_key_order :
  forall (self : OpentunerTuner) (cfg1 cfg2 : dict),
    dict_wf cfg1 -> dict_wf cfg2 ->
    (forall k, dict_get cfg1 k = dict_get cfg2 k) ->
    json_dumps_sort_keys float_repr cfg1 =
      json_dumps_sort_keys float_repr cfg2 /\
    forall (runtime : float) (w w1 : world),
      record_into_db self runtime cfg1 w = (Ok tt, w1) ->
      exists m,
        query_from_db self cfg2 w1 = (Ok m, w1) /\
        query_from_db self cfg1 w1 = (Ok m, w1) /\
        float_ltb runtime m = false /\
        (fst (query_from_db self cfg1 w) = Raise ConfigurationNotInDBError ->
         m = runtime).
Proof.
  intros self cfg1 cfg2 Hwf1 Hwf2 Hsame.
  assert (Hjson : json_dumps_sort_keys float_repr cfg1 =
                  json_dumps_sort_keys float_repr cfg2).
  { unfold json_dumps_sort_keys.
    rewrite (sorted_items_order_independent cfg1 cfg2 Hwf1 Hwf2 Hsame).
    reflexivity. }
  split; [exact Hjson |].
  intros runtime w w1 Hrec.
  rewrite record_into_db_eval in Hrec.
  destruct (json_dumps_sort_keys float_repr cfg1) as [s |] eqn:Hs;
    [| discriminate].
  injection Hrec as Hw1.
  assert (Hq : forall cfg,
             json_dumps_sort_keys float_repr cfg = Ok s ->
             query_from_db self cfg w1 =
               (match (map row.runtime_in_sec
                         (filter (query_cond self s) (rows_of w))
                       ++ [runtime])%list
                with
                | [] => Raise ConfigurationNotInDBError
                | first :: rest => Ok (py_min first rest)
                end, w1)).
  { intros cfg Hcfg. rewrite (query_from_db_eval self cfg w1 s Hcfg).
    subst w1. unfold rows_of at 1, conn. simpl.
    rewrite filter_app. simpl. rewrite query_cond_recorded_row.
    rewrite map_app. reflexivity. }
  rewrite (Hq cfg2 (eq_sym Hjson)), (Hq cfg1 Hs).
  rewrite (query_from_db_eval self cfg1 w s Hs). simpl fst.
  destruct (map row.runtime_in_sec
              (filter (query_cond self s) (rows_of w)))
    as [| first rest] eqn:Hold; simpl.
  - exists runtime. repeat split. apply float_ltb_irrefl.
  - exists (py_min first (rest ++ [runtime])).
    repeat split; [| discriminate].
    apply (py_min_is_minimum (rest ++ [runtime]) first).
    right. apply in_or_app. right. left. reflexivity.
Qed.
End CacheTheorems.

Lemma Demo_same_mapping :
  forall k, dict_get Demo.a_then_b k = dict_get Demo.b_then_a k.
Proof.
  intros k. unfold Demo.a_then_b, Demo.b_then_a, dict_get.
  destruct (String.eqb "a" k) eqn:Ha, (String.eqb "b" k) eqn:Hb;
    try reflexivity.
  apply String.eqb_eq in Ha. apply String.eqb_eq in Hb.
  exfalso. congruence.
Defined.

Lemma lookup_independent_of_key_order_witness :
  json_dumps_sort_keys (float_repr (External := Demo.healthy)) Demo.a_then_b =
    json_dumps_sort_keys (float_repr (External := Demo.healthy))
      Demo.b_then_a /\
  exists m,
    query_from_db Demo.tiled_tuner Demo.b_then_a
      (snd (record_into_db Demo.tiled_tuner (Finite 3) Demo.a_then_b
              (Demo.empty_world Demo.healthy))) =
      (Ok m,
       snd (record_into_db Demo.tiled_tuner (Finite 3) Demo.a_then_b
              (Demo.empty_world Demo.healthy))) /\
    m = Finite 3.
Proof.
  destruct (lookup_independent_of_key_order (E := Demo.healthy)
              Demo.tiled_tuner Demo.a_then_b Demo.b_then_a) as [Hjson Hrec].
  - repeat constructor; simpl; intuition discriminate.
  - repeat constructor; simpl; intuition discriminate.
  - exact Demo_same_mapping.
  - split; [exact Hjson |].
    destruct (Hrec (Finite 3) (Demo.empty_world Demo.healthy) _ eq_refl)
      as [m [Hb [_ [_ Hfirst]]]].
    exists m. split; [exact Hb | apply Hfirst; reflexivity].
Defined.

(** Two records of one key at 2.5 and 1.7 seconds: the lookup returns
    1.7. *)
Example query_from_db_min_of_duplicates :
  fst (query_from_db Demo.tiled_tuner Demo.cfg
         (snd (record_into_db Demo.tiled_tuner (Finite (17 # 10)) Demo.cfg
                 (snd (record_into_db Demo.tiled_tuner (Finite (25 # 10))
                         Demo.cfg (Demo.empty_world Demo.healthy)))))) =
    Ok (Finite (17 # 10)).
Proof. reflexivity. Qed.

(** C1. The lookup does not compare the transform-space identity: with a
    table whose only row was recorded for another transform space (same
    problem fingerprint, same parameters, 1.7 seconds), the seed
    enumeration of this transform space selects nothing, and the lookup
    nevertheless returns 1.7 instead of raising
    [ConfigurationNotInDBError]. *)
Theorem query_from_db_ignores_transform_space :
  transform_space_id Demo.tiled_tuner <> transform_space_id Demo.raw_tuner /\
  map row.transform_id (rows_of Demo.seeded_by_raw) =
    [transform_space_id Demo.raw_tuner] /\
  fst (seed_configurations_selected Demo.tiled_tuner Demo.seeded_by_raw) =
    Ok [] /\
  fst (query_from_db Demo.tiled_tuner Demo.cfg Demo.seeded_by_raw) =
    Ok (Finite (17 # 10)).
Proof.
  split; [discriminate |]. repeat split.
Qed.

(** * Further properties of the module *)

(** ** The table of the result cache *)

Section TableProperties.
Context {E : External}.

Lemma rows_of_conn (w : world) : rows_of (snd (conn w)) = rows_of w.
Proof.
  unfold rows_of, conn. destruct (table w) eqn:Ht; simpl; rewrite ?Ht;
    reflexivity.
Qed.

Lemma conn_conn (w : world) : conn (snd (conn w)) = (Ok tt, snd (conn w)).
Proof.
  unfold conn. destruct (table w) eqn:Ht; simpl; rewrite ?Ht; reflexivity.
Qed.

(** What a lookup computes, whether the parameters can be serialized or
    not. *)
Lemma query_from_db_result (self : OpentunerTuner) (cfg : dict) (w : world) :
  query_from_db self cfg w =
    (match json_dumps_sort_keys float_repr cfg with
     | Raise e => Raise e
     | Ok s =>
         match map row.runtime_in_sec
                 (filter (query_cond self s) (rows_of w)) with
         | [] => Raise ConfigurationNotInDBError
         | first :: rest => Ok (py_min first rest)
         end
     end, snd (conn w)).
Proof.
  destruct (json_dumps_sort_keys float_repr cfg) as [s | e] eqn:Hs.
  - apply query_from_db_eval. exact Hs.
  - unfold query_from_db, bind, lift, conn. rewrite Hs.
    destruct (table w); reflexivity.
Qed.

(** X1. Opening the connection a second time changes nothing: the table
    exists after the first time, its rows are the ones it had (none when
    it had to be created), and no call is made. *)
Theorem conn_idempotent :
  forall w : world,
    fst (conn w) = Ok tt /\
    conn (snd (conn w)) = (Ok tt, snd (conn w)) /\
    table (snd (conn w)) = Some (rows_of w) /\
    calls (snd (conn w)) = calls w.
Proof.
  intros w. split; [| split; [apply conn_conn |]].
  - unfold conn. destruct (table w); reflexivity.
  - unfold conn, rows_of. destruct (table w) eqn:Ht; simpl; rewrite ?Ht;
      split; reflexivity.
Qed.

(** X2. A lookup only reads: whatever it returns or raises, the rows of
    the table and the calls made are what they were, and the same lookup
    right after it has the same outcome and changes nothing at all. *)
Theorem query_from_db_read_only :
  forall (self : OpentunerTuner) (cfg : dict) (w : world),
    rows_of (snd (query_from_db self cfg w)) = rows_of w /\
    calls (snd (query_from_db self cfg w)) = calls w /\
    query_from_db self cfg (snd (query_from_db self cfg w)) =
      query_from_db self cfg w.
Proof.
  intros self cfg w.
  rewrite (query_from_db_result self cfg (snd (query_from_db self cfg w))).
  rewrite (query_from_db_result self cfg w). simpl snd.
  rewrite rows_of_conn, conn_conn. simpl snd.
  repeat split. unfold conn. destruct (table w); reflexivity.
Qed.

(** X3. An insertion that returns appends exactly one row, which carries
    the runtime, the tuner's transform-space identity, the serialized
    parameters and the time of the insertion; the rows that were there
    stay as they were and no call is made.  An insertion that raises (the
    parameters cannot be serialized) leaves the rows as they were. *)
Theorem record_into_db_appends_one_row :
  forall (self : OpentunerTuner) (runtime : float) (cfg : dict) (w : world),
    match record_into_db self runtime cfg w with
    | (Ok _, w1) =>
        exists new,
          rows_of w1 = (rows_of w ++ [new])%list /\
          row.runtime_in_sec new = runtime /\
          row.transform_id new = transform_space_id self /\
          json_dumps_sort_keys float_repr cfg =
            Ok (row.transform_params new) /\
          row.timestamp new = now_Chicago w /\
          calls w1 = calls w
    | (Raise e, w1) =>
        rows_of w1 = rows_of w /\
        json_dumps_sort_keys float_repr cfg = Raise e
    end.
Proof.
  intros self runtime cfg w. rewrite record_into_db_eval.
  destruct (json_dumps_sort_keys float_repr cfg) as [s | e].
  - eexists. unfold rows_of at 1. simpl. repeat split.
  - split; [apply rows_of_conn | reflexivity].
Qed.

End TableProperties.

(** ** Lookups, insertions and seeds *)

Section LookupProperties.
Context {E : External}.

Lemma py_min_snoc (first : float) (rest : list float) (x : float) :
  py_min first (rest ++ [x]) =
    if float_ltb x (py_min first rest) then x else py_min first rest.
Proof. unfold py_min. rewrite fold_left_app. reflexivity. Qed.

Lemma record_into_db_rows (self : OpentunerTuner) (runtime : float)
    (cfg : dict) (w w1 : world) :
  record_into_db self runtime cfg w = (Ok tt, w1) ->
  exists s,
    json_dumps_sort_keys float_repr cfg = Ok s /\
    rows_of w1 =
      (rows_of w ++
       [recorded_row self runtime s (now_Chicago w)
          (Z.of_nat (List.length (rows_of w)) + 1)])%list /\
    snd (conn w1) = w1.
Proof.
  rewrite record_into_db_eval.
  destruct (json_dumps_sort_keys float_repr cfg) as [s |]; [| discriminate].
  intros H. injection H as <-. exists s. repeat split.
Qed.

(** X5. A lookup whose parameters can be serialized returns the runtime
    of one of the rows that agree with the problem fingerprint and the
    serialized parameters in the six compared columns (the transform
    identity is not one of them), and none of these rows has a smaller
    runtime; it raises [ConfigurationNotInDBError], and nothing else,
    exactly when there is no such row. *)
Theorem query_from_db_returns_minimum :
  forall (self : OpentunerTuner) (cfg : dict) (w : world) (s : string),
    json_dumps_sort_keys float_repr cfg = Ok s ->
    match fst (query_from_db self cfg w) with
    | Ok m =>
        exists r,
          In r (filter (query_cond self s) (rows_of w)) /\
          row.runtime_in_sec r = m /\
          forall r',
            In r' (filter (query_cond self s) (rows_of w)) ->
            float_ltb (row.runtime_in_sec r') m = false
    | Raise e =>
        e = ConfigurationNotInDBError /\
        filter (query_cond self s) (rows_of w) = []
    end.
Proof.
  intros self cfg w s Hs. rewrite query_from_db_result, Hs. simpl fst.
  destruct (filter (query_cond self s) (rows_of w)) as [| r0 l] eqn:Hf;
    simpl.
  - split; reflexivity.
  - destruct (py_min_is_minimum (map row.runtime_in_sec l)
                (row.runtime_in_sec r0)) as [Hin Hlow].
    change (row.runtime_in_sec r0 :: map row.runtime_in_sec l)
      with (map row.runtime_in_sec (r0 :: l)) in Hin, Hlow.
    apply in_map_iff in Hin. destruct Hin as [r [Hr Hin]].
    exists r. split; [exact Hin |]. split; [exact Hr |].
    intros r' Hr'. apply Hlow. apply in_map. exact Hr'.
Qed.

(** X6. After a hit at [m], inserting a runtime for the same parameters
    makes the lookup return the better of the two: the new runtime when
    it is strictly smaller than [m], and [m] otherwise. *)
Theorem record_into_db_keeps_the_better_runtime :
  forall (self : OpentunerTuner) (runtime m : float) (cfg : dict)
         (w w0 w1 : world),
    query_from_db self cfg w = (Ok m, w0) ->
    record_into_db self runtime cfg w = (Ok tt, w1) ->
    query_from_db self cfg w1 =
      (Ok (if float_ltb runtime m then runtime else m), w1).
Proof.
  intros self runtime m cfg w w0 w1 Hq Hrec.
  destruct (record_into_db_rows self runtime cfg w w1 Hrec)
    as [s [Hs [Hrows Hconn]]].
  rewrite query_from_db_result, Hs in Hq.
  rewrite query_from_db_result, Hs, Hconn, Hrows.
  rewrite filter_app, map_app. simpl filter.
  rewrite query_cond_recorded_row. simpl map.
  destruct (map row.runtime_in_sec
              (filter (query_cond self s) (rows_of w)))
    as [| first rest]; [discriminate |].
  injection Hq as Hm _.
  change ((first :: rest) ++ [runtime])%list
    with (first :: (rest ++ [runtime]))%list.
  cbv iota. rewrite py_min_snoc, Hm. reflexivity.
Qed.

Lemma query_cond_other_parameters (self : OpentunerTuner) (runtime : float)
    (s1 s2 ts : string) (id : Z) :
  s1 <> s2 ->
  query_cond self s2 (recorded_row self runtime s1 ts id) = false.
Proof.
  intros Hne. unfold query_cond, recorded_row. simpl.
  apply String.eqb_neq in Hne. rewrite Hne, !String.eqb_refl. reflexivity.
Qed.

(** X7. An insertion under parameters that serialize differently does
    not change what the lookup of other parameters returns or raises. *)
Theorem record_into_db_leaves_other_parameters :
  forall (self : OpentunerTuner) (runtime : float) (cfg1 cfg2 : dict)
         (w w1 : world) (s1 s2 : string),
    json_dumps_sort_keys float_repr cfg1 = Ok s1 ->
    json_dumps_sort_keys float_repr cfg2 = Ok s2 ->
    s1 <> s2 ->
    record_into_db self runtime cfg1 w = (Ok tt, w1) ->
    fst (query_from_db self cfg2 w1) = fst (query_from_db self cfg2 w).
Proof.
  intros self runtime cfg1 cfg2 w w1 s1 s2 Hs1 Hs2 Hne Hrec.
  destruct (record_into_db_rows self runtime cfg1 w w1 Hrec)
    as [s [Hs [Hrows _]]].
  assert (s = s1) by congruence. subst s.
  rewrite !query_from_db_result, Hs2, Hrows. simpl fst.
  rewrite filter_app. simpl filter.
  rewrite (query_cond_other_parameters self runtime s1 s2 _ _ Hne).
  rewrite app_nil_r. reflexivity.
Qed.

Lemma seed_configurations_selected_eval (self : OpentunerTuner) (w : world) :
  seed_configurations_selected self w =
    (Ok (map row.transform_params (filter (seed_cond self) (rows_of w))),
     snd (conn w)).
Proof.
  unfold seed_configurations_selected, bind, select_where, ret, rows_of,
    conn.
  destruct (table w) as [rows |] eqn:Ht; simpl; rewrite ?Ht; reflexivity.
Qed.

Lemma seed_cond_recorded_row (self : OpentunerTuner) (runtime : float)
    (s ts : string) (id : Z) :
  seed_cond self (recorded_row self runtime s ts id) = true.
Proof.
  unfold seed_cond, recorded_row. simpl.
  rewrite !String.eqb_refl. reflexivity.
Qed.

(** X8. The strings [seed_configurations] selects grow by every
    insertion of the same tuner: after an insertion they are the ones
    selected before, followed by the serialized parameters just inserted,
    also when the same parameters were inserted before (nothing is
    removed as a duplicate). *)
Theorem seed_configurations_selects_every_record :
  forall (self : OpentunerTuner) (runtime : float) (cfg : dict)
         (w w1 : world),
    record_into_db self runtime cfg w = (Ok tt, w1) ->
    exists l s,
      fst (seed_configurations_selected self w) = Ok l /\
      json_dumps_sort_keys float_repr cfg = Ok s /\
      fst (seed_configurations_selected self w1) = Ok (l ++ [s])%list.
Proof.
  intros self runtime cfg w w1 Hrec.
  destruct (record_into_db_rows self runtime cfg w w1 Hrec)
    as [s [Hs [Hrows _]]].
  exists (map row.transform_params (filter (seed_cond self) (rows_of w))), s.
  rewrite !seed_configurations_selected_eval, Hrows. simpl fst.
  split; [reflexivity |]. split; [exact Hs |].
  rewrite filter_app, map_app. simpl filter.
  rewrite seed_cond_recorded_row. reflexivity.
Qed.

(** X9. What [seed_configurations] selects for one transform space is
    not changed by the insertions of a tuner whose transform-space
    identity is different. *)
Theorem seed_configurations_ignores_other_transform_spaces :
  forall (self other : OpentunerTuner) (runtime : float) (cfg : dict)
         (w w1 : world),
    transform_space_id self <> transform_space_id other ->
    record_into_db other runtime cfg w = (Ok tt, w1) ->
    fst (seed_configurations_selected self w1) =
      fst (seed_configurations_selected self w).
Proof.
  intros self other runtime cfg w w1 Hne Hrec.
  destruct (record_into_db_rows other runtime cfg w w1 Hrec)
    as [s [Hs [Hrows _]]].
  rewrite !seed_configurations_selected_eval, Hrows. simpl fst.
  rewrite filter_app. simpl filter.
  assert (Hc : seed_cond self
                 (recorded_row other runtime s (now_Chicago w)
                    (Z.of_nat (List.length (rows_of w)) + 1)) = false).
  { unfold seed_cond, recorded_row. simpl.
    assert (Hf : String.eqb (transform_space_id other)
                   (transform_space_id self) = false)
      by (apply String.eqb_neq; congruence).
    rewrite Hf. reflexivity. }
  rewrite Hc, app_nil_r. reflexivity.
Qed.
End LookupProperties.

(** ** Decorators and the search space *)

(** X10. A function under a stack of decorators becomes one
    [ParametrizedTransform], whatever the mix of the two kinds: its
    callable is the function wrapped by [functools.cache] once, its
    derived arguments are the [einsum_arg]s of the stack from the top down
    and its tunable parameters the [transform_param]s from the top down. *)
Theorem decorate_collects_the_stack :
  forall (d : decorator) (ds : list decorator) (fn : callable),
    decorate (d :: ds) fn =
      Already (mkParametrizedTransform (cache fn)
                 (einsum_args_of (d :: ds))
                 (transform_params_of (d :: ds))).
Proof.
  intros d ds. revert d.
  induction ds as [| d' ds IH]; intros d fn.
  - destruct d; reflexivity.
  - change (decorate (d :: d' :: ds) fn)
      with (Already (decorator_call d (decorate (d' :: ds) fn))).
    rewrite IH. destruct d; reflexivity.
Qed.

Section ManipulatorProperties.
Context {E : External}.
Variable call_param_func : string -> FusedEinsum -> result param_space.
Variable repr_transform_param : transform_param.t -> string.

Lemma add_parameters_ok (einsum : FusedEinsum) :
  forall (params : list transform_param.t)
         (acc ps : list opentuner_parameter),
    add_parameters call_param_func repr_transform_param einsum params acc =
      Ok ps ->
    exists new,
      ps = (acc ++ new)%list /\
      Forall2 (declared_as call_param_func einsum) params new.
Proof.
  induction params as [| param rest IH]; intros acc ps H; simpl in H.
  - injection H as <-. exists []. rewrite app_nil_r. split; constructor.
  - destruct (call_param_func (transform_param.func param) einsum)
      as [[[p |] | o] | e] eqn:Hf; try discriminate.
    + destruct (IH _ _ H) as [new [-> Hall]].
      eexists. rewrite <- app_assoc. split; [reflexivity |].
      constructor; [| exact Hall]. unfold declared_as. rewrite Hf.
      reflexivity.
    + destruct (IH _ _ H) as [new [-> Hall]].
      eexists. rewrite <- app_assoc. split; [reflexivity |].
      constructor; [| exact Hall]. unfold declared_as. rewrite Hf.
      reflexivity.
Qed.

Lemma declared_as_name (einsum : FusedEinsum) (param : transform_param.t)
    (op : opentuner_parameter) :
  declared_as call_param_func einsum param op ->
  parameter_name op = transform_param.var_name param.
Proof.
  unfold declared_as.
  destruct (call_param_func (transform_param.func param) einsum)
    as [[[p |] | o] | e]; intros H; try contradiction; subst op;
    reflexivity.
Qed.

(** X11. When [manipulator] returns, the search space has one parameter
    per tunable parameter of the transform, in the same order and under
    the same names: an integer parameter with the bounds of the
    [IntParameter] the function returned for the problem instance, or a
    boolean parameter for a [BoolParameter]. *)
Theorem manipulator_declares_every_parameter :
  forall (self : OpentunerTuner) (w w' : world)
         (ps : list opentuner_parameter),
    manipulator call_param_func repr_transform_param self w = (Ok ps, w') ->
    exists tf,
      transform_func self w = (Ok tf, w') /\
      Forall2 (declared_as call_param_func (einsum self))
        (transform_params tf) ps /\
      map parameter_name ps =
        map transform_param.var_name (transform_params tf).
Proof.
  intros self w w' ps H. unfold manipulator, bind, lift in H.
  destruct (transform_func self w) as [[tf | e] w1]; [| discriminate].
  destruct (add_parameters call_param_func repr_transform_param
              (einsum self) (transform_params tf) []) as [ps' | e] eqn:Hadd;
    [| discriminate].
  injection H as <- <-. exists tf. split; [reflexivity |].
  destruct (add_parameters_ok _ _ _ _ Hadd) as [new [-> Hall]].
  simpl. split; [exact Hall |]. clear Hadd.
  induction Hall as [| param op params ops Hd _ IH]; simpl;
    [reflexivity |].
  rewrite IH, (declared_as_name _ _ _ Hd). reflexivity.
Qed.

Lemma add_parameters_app (einsum : FusedEinsum) :
  forall (pre rest : list transform_param.t)
         (acc : list opentuner_parameter),
    (forall p, In p pre ->
       exists op, declared_as call_param_func einsum p op) ->
    exists new,
      add_parameters call_param_func repr_transform_param einsum
        (pre ++ rest) acc =
      add_parameters call_param_func repr_transform_param einsum rest
        (acc ++ new)%list.
Proof.
  induction pre as [| param pre IH]; intros rest acc Hpre.
  - exists []. rewrite app_nil_r. reflexivity.
  - destruct (Hpre param (or_introl eq_refl)) as [op Hop].
    unfold declared_as in Hop. simpl.
    destruct (call_param_func (transform_param.func param) einsum)
      as [[[p |] | o] | e]; try contradiction.
    + destruct (IH rest
                  (acc ++ [IntegerParameter (transform_param.var_name param)
                             (IntParameter.low p) (IntParameter.high p)])%list)
        as [new Hnew].
      { intros q Hq. apply Hpre. right. exact Hq. }
      rewrite Hnew, <- app_assoc. eexists. reflexivity.
    + destruct (IH rest
                  (acc ++ [BooleanParameter
                             (transform_param.var_name param)])%list)
        as [new Hnew].
      { intros q Hq. apply Hpre. right. exact Hq. }
      rewrite Hnew, <- app_assoc. eexists. reflexivity.
Qed.

(** X12. When the function of a tunable parameter returns an object that
    is neither an [IntParameter] nor a [BoolParameter], and the parameters
    before it were declared, [manipulator] raises [NotImplementedError]
    with the [repr] of that parameter. *)
Theorem manipulator_rejects_other_objects :
  forall (self : OpentunerTuner) (w w1 : world) (tf : ParametrizedTransform)
         (pre post : list transform_param.t) (param : transform_param.t)
         (o : pyobj),
    transform_func self w = (Ok tf, w1) ->
    transform_params tf = (pre ++ param :: post)%list ->
    (forall p, In p pre ->
       exists op, declared_as call_param_func (einsum self) p op) ->
    call_param_func (transform_param.func param) (einsum self) =
      Ok (another_object o) ->
    manipulator call_param_func repr_transform_param self w =
      (Raise (OtherError "NotImplementedError"
                ("Parameter: " ++ repr_transform_param param ++ ".")),
       w1).
Proof.
  intros self w w1 tf pre post param o Htf Hps Hpre Hbad.
  unfold manipulator, bind, lift. rewrite Htf, Hps.
  destruct (add_parameters_app (einsum self) pre (param :: post) [] Hpre)
    as [new ->].
  simpl. rewrite Hbad. reflexivity.
Qed.
End ManipulatorProperties.

(** ** Loading and binding the transform *)

Section LoadAndBindProperties.
Context {E : External}.

(** The loader changes the state by one executed module or not at all. *)
Lemma loader_world (module_path : string) (w : world) :
  snd (get_transform_func_from_module_path module_path w) = w \/
  exists spec,
    snd (get_transform_func_from_module_path module_path w) =
      add_call w (call_exec_module spec).
Proof.
  unfold get_transform_func_from_module_path.
  destruct (os_path_split module_path) as [dirname filename].
  destruct (endswith filename ".py"); simpl; [| left; reflexivity].
  destruct (spec_from_file_location (drop_last 3 filename) module_path)
    as [spec |]; [| left; reflexivity].
  destruct (spec_has_loader spec); simpl; [| left; reflexivity].
  right. exists spec. unfold bind at 1, external.
  destruct (exec_module spec) as [m | e]; [| reflexivity].
  unfold bind, getattr.
  destruct (dict_get m "transform") as [[] |]; reflexivity.
Qed.

(** X13. The loader itself neither reads nor writes the table and the
    cached transform, and it measures nothing: the calls made are the ones
    before, followed by at most one execution of a module; when the file
    name does not end in [.py] it raises [AssertionError] and nothing is
    executed at all. *)
Theorem get_transform_func_from_module_path_effects :
  forall (module_path : string) (w : world),
    table (snd (get_transform_func_from_module_path module_path w)) =
      table w /\
    transform_func_slot
      (snd (get_transform_func_from_module_path module_path w)) =
      transform_func_slot w /\
    (calls (snd (get_transform_func_from_module_path module_path w)) =
       calls w \/
     exists spec,
       calls (snd (get_transform_func_from_module_path module_path w)) =
         (calls w ++ [call_exec_module spec])%list) /\
    (endswith (snd (os_path_split module_path)) ".py" = false ->
     get_transform_func_from_module_path module_path w =
       (Raise AssertionError, w)).
Proof.
  intros module_path w.
  destruct (loader_world module_path w) as [-> | [spec ->]].
  - repeat split; auto.
    unfold get_transform_func_from_module_path.
    destruct (os_path_split module_path) as [dirname filename]. simpl.
    intros ->. reflexivity.
  - repeat split; [right; exists spec; reflexivity |].
    unfold get_transform_func_from_module_path.
    destruct (os_path_split module_path) as [dirname filename]. simpl.
    intros ->. reflexivity.
Qed.

(** X14. The transform is loaded once: after an access of
    [transform_func] that returned, every further access returns the same
    transform and changes nothing (the module is not executed again); an
    access that raised has cached nothing. *)
Theorem transform_func_loads_once :
  forall (self : OpentunerTuner) (w : world),
    match transform_func self w with
    | (Ok pt, w1) =>
        transform_func self w1 = (Ok pt, w1) /\
        transform_func_slot w1 = Some pt
    | (Raise e, w1) => transform_func_slot w1 = None
    end.
Proof.
  intros self w. unfold transform_func at 1.
  destruct (transform_func_slot w) as [pt |] eqn:Hslot.
  - unfold transform_func. rewrite Hslot. auto.
  - pose proof (loader_world (module_path self) w) as Hw.
    destruct (get_transform_func_from_module_path (module_path self) w)
      as [[pt | e] w1].
    + unfold transform_func. simpl. auto.
    + simpl in Hw. destruct Hw as [-> | [spec ->]]; exact Hslot.
Qed.

Lemma transform_func_world (self : OpentunerTuner) (w : world) :
  table (snd (transform_func self w)) = table w /\
  now_Chicago (snd (transform_func self w)) = now_Chicago w /\
  (calls (snd (transform_func self w)) = calls w \/
   exists spec,
     calls (snd (transform_func self w)) =
       (calls w ++ [call_exec_module spec])%list).
Proof.
  unfold transform_func.
  destruct (transform_func_slot w) as [pt |]; [simpl; auto |].
  pose proof (loader_world (module_path self) w) as Hw.
  destruct (get_transform_func_from_module_path (module_path self) w)
    as [[pt | e] w1]; simpl in *;
    destruct Hw as [-> | [spec ->]]; simpl; eauto.
Qed.

(** The dict comprehension calls the functions of a prefix of the
    bindings and changes nothing else. *)
Lemma derivative_kwargs_world (einsum : FusedEinsum) :
  forall (args : list einsum_arg.t) (acc : dict) (w : world),
    exists n,
      snd (derivative_kwargs einsum args acc w) =
        add_calls w (firstn n (derivative_calls einsum args)).
Proof.
  induction args as [| arg rest IH]; intros acc w.
  - exists 0%nat. simpl. rewrite add_calls_nil. reflexivity.
  - simpl. unfold bind at 1, external.
    destruct (call_func (einsum_arg.func arg) einsum) as [v | e].
    + destruct (IH (dict_set acc (einsum_arg.var_name arg) v)
                  (add_call w (call_einsum_arg (einsum_arg.func arg) einsum)))
        as [n Hn].
      exists (S n). rewrite Hn, add_calls_cons. reflexivity.
    + exists 1%nat. simpl. unfold add_calls, add_call. reflexivity.
Qed.

Lemma bind_args_world (self : ParametrizedTransform) (einsum : FusedEinsum)
    (transform_args : dict) (w : world) :
  exists n,
    snd (bind_args self einsum transform_args w) =
      add_calls w
        (firstn n (derivative_calls einsum (einsum_derivative_args self))).
Proof.
  destruct (derivative_kwargs_world einsum (einsum_derivative_args self)
              [] w) as [n Hn].
  exists n. unfold bind_args, bind at 1.
  destruct (derivative_kwargs einsum (einsum_derivative_args self) [] w)
    as [[d | e] w1]; simpl in Hn; subst w1; [| reflexivity].
  unfold bind, lift, ret.
  destruct (merge_kwargs d transform_args); reflexivity.
Qed.

Lemma no_measurement_in_derivative_calls (einsum : FusedEinsum)
    (args : list einsum_arg.t) (n : nat) :
  filter is_measurement (firstn n (derivative_calls einsum args)) = [].
Proof.
  revert n. induction args as [| arg rest IH]; intros [| n]; simpl;
    try reflexivity.
  apply IH.
Qed.

Lemma derivative_kwargs_stops (einsum : FusedEinsum) :
  forall (pre : list einsum_arg.t) (a : einsum_arg.t)
         (post : list einsum_arg.t) (e : exn) (acc : dict) (w : world),
    all_succeed einsum pre ->
    call_func (einsum_arg.func a) einsum = Raise e ->
    derivative_kwargs einsum (pre ++ a :: post) acc w =
      (Raise e, add_calls w (derivative_calls einsum (pre ++ [a]))).
Proof.
  induction pre as [| arg pre IH]; intros a post e acc w Hall Hfail.
  - simpl. unfold bind, external. rewrite Hfail.
    unfold add_calls, add_call. reflexivity.
  - destruct (Hall arg (or_introl eq_refl)) as [v Hv].
    simpl. unfold bind at 1, external. rewrite Hv.
    rewrite (IH a post e); [| | exact Hfail].
    + rewrite add_calls_cons. reflexivity.
    + intros x Hx. apply Hall. right. exact Hx.
Qed.

(** X15. When the function of a derived argument raises, and those of the
    bindings before it answered, [bind_args] raises the same error: the
    functions up to that one were called, the ones after it were not, and
    no partial application is made. *)
Theorem bind_args_stops_at_first_failure :
  forall (self : ParametrizedTransform) (einsum : FusedEinsum)
         (transform_args : dict) (w : world)
         (pre post : list einsum_arg.t) (a : einsum_arg.t) (e : exn),
    einsum_derivative_args self = (pre ++ a :: post)%list ->
    all_succeed einsum pre ->
    call_func (einsum_arg.func a) einsum = Raise e ->
    bind_args self einsum transform_args w =
      (Raise e, add_calls w (derivative_calls einsum (pre ++ [a]))).
Proof.
  intros self einsum targs w pre post a e Hargs Hall Hfail.
  unfold bind_args, bind at 1. rewrite Hargs.
  rewrite (derivative_kwargs_stops einsum pre a post e [] w Hall Hfail).
  reflexivity.
Qed.

Lemma dict_set_keys (d : dict) (k : string) (v : pyobj) :
  map fst (dict_set d k v) =
    if dict_contains d k then map fst d else (map fst d ++ [k])%list.
Proof.
  unfold dict_contains.
  induction d as [| [k0 v0] d IH]; simpl; [reflexivity |].
  destruct (String.eqb k0 k) eqn:E0; simpl; [reflexivity |].
  rewrite IH. destruct (dict_get d k); reflexivity.
Qed.

Lemma dict_wf_snoc (d : dict) (k : string) (v : pyobj) :
  dict_wf d -> dict_contains d k = false -> dict_wf (d ++ [(k, v)])%list.
Proof.
  unfold dict_wf. intros Hwf Hc. rewrite map_app. simpl.
  apply dict_contains_false_iff, dict_get_None_iff in Hc.
  apply NoDup_app; [exact Hwf | repeat constructor; intros [] |].
  intros x Hx [<- | []]. contradiction.
Qed.

Lemma dict_set_wf (d : dict) (k : string) (v : pyobj) :
  dict_wf d -> dict_wf (dict_set d k v).
Proof.
  intros Hwf. unfold dict_wf. rewrite dict_set_keys.
  destruct (dict_contains d k) eqn:Hc; [exact Hwf |].
  pose proof (dict_wf_snoc d k v Hwf Hc) as H.
  unfold dict_wf in H. rewrite map_app in H. exact H.
Qed.

Lemma derivative_kwargs_wf (einsum : FusedEinsum) :
  forall (args : list einsum_arg.t) (acc d : dict) (w w1 : world),
    derivative_kwargs einsum args acc w = (Ok d, w1) ->
    dict_wf acc -> dict_wf d.
Proof.
  induction args as [| arg rest IH]; intros acc d w w1 H Hwf.
  - simpl in H. injection H as <- _. exact Hwf.
  - simpl in H. unfold bind at 1, external in H.
    destruct (call_func (einsum_arg.func arg) einsum) as [v |];
      [| discriminate].
    eapply IH; [exact H | apply dict_set_wf; exact Hwf].
Qed.

Lemma merge_kwargs_ok (extra kw r : dict) :
  merge_kwargs kw extra = Ok r ->
  dict_wf kw -> dict_wf r /\ r = (kw ++ extra)%list.
Proof.
  revert kw. induction extra as [| [k v] rest IH]; intros kw H Hwf;
    simpl in H.
  - injection H as <-. rewrite app_nil_r. auto.
  - destruct (dict_contains kw k) eqn:Hc; [discriminate |].
    destruct (IH _ H (dict_wf_snoc kw k v Hwf Hc)) as [Hr ->].
    split; [exact Hr |]. rewrite <- app_assoc. reflexivity.
Qed.

(** X16. The partial application [bind_args] returns is over the
    underlying callable of the transform, gives no keyword twice, and
    gives every caller-supplied tunable value under its name. *)
Theorem bind_args_keywords_well_formed :
  forall (self : ParametrizedTransform) (einsum : FusedEinsum)
         (transform_args : dict) (w w1 : world) (p : partial.t),
    bind_args self einsum transform_args w = (Ok p, w1) ->
    partial.func p = transform self /\
    dict_wf (partial.keywords p) /\
    forall k v,
      In (k, v) transform_args -> dict_get (partial.keywords p) k = Some v.
Proof.
  intros self einsum targs w w1 p H.
  unfold bind_args, bind at 1 in H.
  destruct (derivative_kwargs einsum (einsum_derivative_args self) [] w)
    as [[d |] w0] eqn:Hd; [| discriminate].
  unfold bind, lift, ret in H.
  destruct (merge_kwargs d targs) as [kw |] eqn:Hm; [| discriminate].
  injection H as <- _. simpl.
  assert (Hwfd : dict_wf d).
  { eapply derivative_kwargs_wf; [exact Hd | constructor]. }
  destruct (merge_kwargs_ok targs d kw Hm Hwfd) as [Hwf ->].
  split; [reflexivity |]. split; [exact Hwf |].
  intros k v Hin. apply dict_get_Some_iff; [exact Hwf |].
  apply in_or_app. right. exact Hin.
Qed.
End LoadAndBindProperties.

(** ** The run step *)

Section RunProperties.
Context {E : External}.

Lemma json_value_raises_TypeError (o : pyobj) (e : exn) :
  json_value float_repr o = Raise e -> exists msg, e = TypeError msg.
Proof.
  destruct o as [| [] | | | [] | | |]; simpl; intros H;
    try discriminate; injection H as <-; eexists; reflexivity.
Qed.

Lemma json_items_raises_TypeError (l : dict) :
  forall (first : bool) (e : exn),
    json_items float_repr first l = Raise e -> exists msg, e = TypeError msg.
Proof.
  induction l as [| [k v] l IH]; intros first e H; simpl in H.
  - discriminate.
  - destruct (json_value float_repr v) as [sv | e0] eqn:Hv.
    + destruct (json_items float_repr false l) as [rest | e1] eqn:Hl;
        [discriminate |].
      injection H as <-. eapply IH. exact Hl.
    + injection H as <-. eapply json_value_raises_TypeError. exact Hv.
Qed.

Lemma json_dumps_raises_TypeError (cfg : dict) (e : exn) :
  json_dumps_sort_keys float_repr cfg = Raise e -> exists msg, e = TypeError msg.
Proof.
  unfold json_dumps_sort_keys.
  destruct (json_items float_repr true (sorted_items cfg)) as [body | e0]
    eqn:Hi; [discriminate |].
  intros H. injection H as <-. eapply json_items_raises_TypeError. exact Hi.
Qed.

Lemma json_items_not_serializable (l : dict) :
  forall first : bool,
    (exists k v, In (k, v) l /\ not_json_serializable v = true) ->
    exists msg, json_items float_repr first l = Raise (TypeError msg).
Proof.
  induction l as [| [k0 v0] l IH]; intros first [k [v [Hin Hbad]]].
  - destruct Hin.
  - simpl. destruct (json_value float_repr v0) as [sv | e0] eqn:Hv.
    + destruct Hin as [Heq | Hin].
      * injection Heq as -> ->.
        destruct v; simpl in Hbad, Hv; discriminate.
      * destruct (IH false) as [msg ->]; [eauto |]. eexists. reflexivity.
    + destruct (json_value_raises_TypeError v0 e0 Hv) as [msg ->].
      eexists. reflexivity.
Qed.

(** X17. A configuration with a value [json.dumps] has no encoding for (a
    NumPy integer, a function, a transform) makes [run] raise [TypeError]
    in the lookup: nothing is loaded, bound, measured or recorded. *)
Theorem run_rejects_unserializable_parameters :
  forall (self : OpentunerTuner) (cfg : dict) (w : world),
    (exists k v, In (k, v) cfg /\ not_json_serializable v = true) ->
    exists msg,
      run self cfg w = (Raise (TypeError msg), snd (conn w)) /\
      calls (snd (conn w)) = calls w /\
      rows_of (snd (conn w)) = rows_of w.
Proof.
  intros self cfg w [k [v [Hin Hbad]]].
  destruct (json_items_not_serializable (sorted_items cfg) true)
    as [msg Hmsg].
  { exists k, v. split; [apply In_sorted_items; exact Hin | exact Hbad]. }
  exists msg. split.
  - unfold run, try_except. rewrite query_from_db_result.
    unfold json_dumps_sort_keys. rewrite Hmsg. reflexivity.
  - split; [| apply rows_of_conn].
    unfold conn. destruct (table w); reflexivity.
Qed.

(** The lookup and the loading of the transform leave the rows and the
    clock as they were and measure nothing. *)
Lemma state_after_load (self : OpentunerTuner) (cfg : dict)
    (w w0 w1 : world) (r0 : result float)
    (r1 : result ParametrizedTransform) :
  query_from_db self cfg w = (r0, w0) ->
  transform_func self w0 = (r1, w1) ->
  table w1 = Some (rows_of w) /\ now_Chicago w1 = now_Chicago w /\
  filter is_measurement (calls w1) = filter is_measurement (calls w).
Proof.
  intros Hq Htf.
  assert (H0 : w0 = snd (conn w)).
  { rewrite query_from_db_result in Hq. injection Hq as _ <-. reflexivity. }
  assert (Ht0 : table w0 = Some (rows_of w) /\
                now_Chicago w0 = now_Chicago w /\ calls w0 = calls w).
  { subst w0. unfold conn, rows_of. destruct (table w) eqn:Ht; simpl; auto. }
  destruct Ht0 as [Ht0 [Hn0 Hc0]].
  destruct (transform_func_world self w0) as [Ht1 [Hn1 Hc1]].
  rewrite Htf in Ht1, Hn1, Hc1. simpl in Ht1, Hn1, Hc1.
  repeat split; try congruence.
  destruct Hc1 as [-> | [spec ->]]; [congruence |].
  rewrite filter_app, Hc0. simpl. apply app_nil_r.
Qed.

(** So does the binding. *)
Lemma state_after_bind (tf : ParametrizedTransform) (einsum : FusedEinsum)
    (cfg : dict) (w1 w2 : world) (r2 : result partial.t) :
  bind_args tf einsum cfg w1 = (r2, w2) ->
  table w2 = table w1 /\ now_Chicago w2 = now_Chicago w1 /\
  filter is_measurement (calls w2) = filter is_measurement (calls w1).
Proof.
  intros Hb.
  destruct (bind_args_world tf einsum cfg w1) as [n Hn].
  rewrite Hb in Hn. simpl in Hn. subst w2. simpl.
  repeat split.
  rewrite filter_app, no_measurement_in_derivative_calls.
  apply app_nil_r.
Qed.

(** X18. When the lookup misses and the transform is loaded and bound,
    the errors of these two steps leave [run] as they are, before any
    measurement: neither the roofline comparison nor the timing has been
    called, and the rows of the table are what they were. *)
Theorem run_fails_before_measuring :
  forall (self : OpentunerTuner) (cfg : dict) (w w0 : world),
    query_from_db self cfg w = (Raise ConfigurationNotInDBError, w0) ->
    (forall e w1,
       transform_func self w0 = (Raise e, w1) ->
       run self cfg w = (Raise e, w1) /\
       filter is_measurement (calls w1) = filter is_measurement (calls w) /\
       rows_of w1 = rows_of w) /\
    (forall tf w1 e w2,
       transform_func self w0 = (Ok tf, w1) ->
       bind_args tf (einsum self) cfg w1 = (Raise e, w2) ->
       run self cfg w = (Raise e, w2) /\
       filter is_measurement (calls w2) = filter is_measurement (calls w) /\
       rows_of w2 = rows_of w).
Proof.
  intros self cfg w w0 Hq. split.
  - intros e w1 Htf.
    destruct (state_after_load self cfg w w0 w1 _ _ Hq Htf)
      as [Ht1 [_ Hm1]].
    split; [| split; [exact Hm1 | unfold rows_of; rewrite Ht1; reflexivity]].
    unfold run. unfold try_except at 1. rewrite Hq. simpl.
    unfold bind at 1. rewrite Htf. reflexivity.
  - intros tf w1 e w2 Htf Hb.
    destruct (state_after_load self cfg w w0 w1 _ _ Hq Htf)
      as [Ht1 [_ Hm1]].
    destruct (state_after_bind tf (einsum self) cfg w1 w2 _ Hb)
      as [Ht2 [_ Hm2]].
    split; [| split; [congruence |]].
    + unfold run. unfold try_except at 1. rewrite Hq. simpl.
      unfold bind at 1. rewrite Htf. unfold bind at 1. rewrite Hb.
      reflexivity.
    + unfold rows_of at 1. rewrite Ht2, Ht1. reflexivity.
Qed.
End RunProperties.

Section MeasureAndRecord.
Context {E : External}.

(** X19. When the lookup misses, the transform is loaded and bound, and
    both the roofline comparison and the timing return, [run] reports the
    measured runtime and has appended one row with that runtime and the
    serialized configuration; the two measurement calls were made once
    each, in this order.  A [run] of the same configuration right after
    it is a hit at that runtime and changes nothing. *)
Theorem run_measures_records_and_then_hits :
  forall (self : OpentunerTuner) (cfg : dict) (w w0 w1 w2 : world)
         (tf : ParametrizedTransform) (b : partial.t) (s : string)
         (t : float),
    query_from_db self cfg w = (Raise ConfigurationNotInDBError, w0) ->
    transform_func self w0 = (Ok tf, w1) ->
    bind_args tf (einsum self) cfg w1 = (Ok b, w2) ->
    stringify_comparison_vs_roofline (einsum self) b (cl_ctx self)
      (long_dim_length self) = Ok s ->
    timeit (einsum self) (cl_ctx self) b (long_dim_length self) = Ok t ->
    exists w3 new,
      run self cfg w = (Ok (mkResult t), w3) /\
      rows_of w3 = (rows_of w ++ [new])%list /\
      row.runtime_in_sec new = t /\
      json_dumps_sort_keys float_repr cfg = Ok (row.transform_params new) /\
      calls w3 =
        (calls w2 ++ [call_roofline (einsum self) b;
                      call_timeit (einsum self) b])%list /\
      run self cfg w3 = (Ok (mkResult t), w3).
Proof.
  intros self cfg w w0 w1 w2 tf b s t Hq Htf Hb Hroof Htime.
  destruct (state_after_load self cfg w w0 w1 _ _ Hq Htf) as [Ht1 [Hn1 _]].
  destruct (state_after_bind tf (einsum self) cfg w1 w2 _ Hb)
    as [Ht2 [Hn2 _]].
  rewrite Ht1 in Ht2. rewrite Hn1 in Hn2.
  (* the lookup missed: the parameters serialize and no row matches *)
  pose proof Hq as Hmiss. rewrite query_from_db_result in Hmiss.
  destruct (json_dumps_sort_keys float_repr cfg) as [sj | e] eqn:Hs.
  2:{ injection Hmiss as He _.
      destruct (json_dumps_raises_TypeError cfg e Hs) as [msg ->].
      discriminate. }
  destruct (map row.runtime_in_sec
              (filter (query_cond self sj) (rows_of w)))
    as [| first rest] eqn:Hold; [| discriminate].
  apply map_eq_nil in Hold. clear Hmiss.
  set (w4 := add_call (add_call w2 (call_roofline (einsum self) b))
               (call_timeit (einsum self) b)).
  assert (Hrows4 : rows_of w4 = rows_of w).
  { unfold rows_of at 1. simpl. rewrite Ht2. reflexivity. }
  set (new := recorded_row self t sj (now_Chicago w)
                (Z.of_nat (List.length (rows_of w)) + 1)).
  set (w3 := mkWorld (Some (rows_of w ++ [new])%list) (calls w4)
               (now_Chicago w4) (transform_func_slot w4)).
  assert (Hrec : record_into_db self t cfg w4 = (Ok tt, w3)).
  { rewrite record_into_db_eval, Hs, Hrows4.
    unfold w3, new. simpl now_Chicago. rewrite Hn2. reflexivity. }
  assert (Hrun : run self cfg w = (Ok (mkResult t), w3)).
  { unfold run. unfold try_except at 1. rewrite Hq. simpl.
    unfold bind at 1. rewrite Htf. unfold bind at 1. rewrite Hb.
    unfold try_except, external. rewrite Hroof.
    unfold bind at 1. rewrite Htime. fold w4.
    unfold bind, ret. rewrite Hrec. reflexivity. }
  assert (Hhit : query_from_db self cfg w3 = (Ok t, w3)).
  { rewrite query_from_db_result, Hs.
    change (rows_of w3) with (rows_of w ++ [new])%list.
    change (snd (conn w3)) with w3.
    rewrite filter_app, Hold. simpl filter.
    unfold new at 1. rewrite query_cond_recorded_row. reflexivity. }
  exists w3, new. split; [exact Hrun |].
  split; [reflexivity |]. split; [reflexivity |].
  split; [reflexivity |]. split.
  - simpl. rewrite <- app_assoc. reflexivity.
  - unfold run, try_except. rewrite Hhit. reflexivity.
Qed.
End MeasureAndRecord.

(** ** The identity of a transform space *)

Lemma cut_after_last_sep_no_sep (name : string) :
  no_sep name = true -> cut_after_last_sep name = ("", name).
Proof.
  induction name as [| c name IH]; simpl; [reflexivity |].
  intros H. apply andb_prop in H. destruct H as [Hc Hn].
  rewrite (IH Hn). simpl.
  destruct (c =? sep)%char; [discriminate | reflexivity].
Qed.

Lemma cut_after_last_sep_dir (dir name : string) :
  no_sep name = true ->
  cut_after_last_sep (dir ++ String sep name) = (dir ++ String sep "", name).
Proof.
  intros Hn. induction dir as [| c dir IH]; simpl.
  - rewrite (cut_after_last_sep_no_sep name Hn). reflexivity.
  - rewrite IH.
    destruct (dir ++ String sep "") eqn:Hd; [| reflexivity].
    destruct dir; discriminate.
Qed.

Lemma rstrip_sep_dir (dir : string) :
  rstrip_sep (dir ++ String sep "") = rstrip_sep dir.
Proof.
  induction dir as [| c dir IH]; simpl.
  - reflexivity.
  - rewrite IH. reflexivity.
Qed.

Lemma os_path_split_dir (dir name : string) :
  dir <> "" -> rstrip_sep dir = dir -> no_sep name = true ->
  os_path_split (dir ++ String sep name) = (dir, name).
Proof.
  intros Hne Hstrip Hn. unfold os_path_split.
  rewrite (cut_after_last_sep_dir dir name Hn), rstrip_sep_dir, Hstrip.
  assert (H1 : String.eqb (dir ++ String sep "") "" = false).
  { apply String.eqb_neq. destruct dir; discriminate. }
  assert (H2 : String.eqb dir "" = false) by (apply String.eqb_neq; exact Hne).
  rewrite H1, H2. reflexivity.
Qed.

Section IdentityProperties.
Context {E : External}.

(** X20. For a module that lies directly in the implementations
    directory the identity of the transform space is its file name alone,
    wherever that directory is installed; for a module whose directory is
    another one it is the whole path.  (The directory is a normalized
    path: not empty and without a trailing slash.) *)
Theorem transform_space_id_of_implementation :
  forall (self : OpentunerTuner) (dir name : string),
    dir <> "" -> rstrip_sep dir = dir -> no_sep name = true ->
    module_path self = dir ++ String sep name ->
    transform_space_id self =
      if String.eqb dir _get_impls_path then name else module_path self.
Proof.
  intros self dir name Hne Hstrip Hn Hpath.
  unfold transform_space_id.
  rewrite Hpath, (os_path_split_dir dir name Hne Hstrip Hn). reflexivity.
Qed.
End IdentityProperties.

(** ** The properties at work *)

Lemma get_transform_func_from_module_path_effects_witness :
  get_transform_func_from_module_path (E := Demo.healthy)
    "/opt/spaces/tiled.txt" (Demo.empty_world Demo.healthy) =
    (Raise AssertionError, Demo.empty_world Demo.healthy).
Proof.
  apply (get_transform_func_from_module_path_effects (E := Demo.healthy)).
  reflexivity.
Defined.

Lemma query_from_db_returns_minimum_witness :
  exists r,
    In r (rows_of Demo.seeded) /\ row.runtime_in_sec r = Finite 3.
Proof.
  pose proof (query_from_db_returns_minimum (E := Demo.healthy)
                Demo.tiled_tuner Demo.cfg Demo.seeded _ eq_refl) as H.
  simpl fst in H. destruct H as [r [Hin [Hr _]]].
  exists r. split; [| exact Hr].
  apply filter_In in Hin. exact (proj1 Hin).
Defined.

Lemma record_into_db_keeps_the_better_runtime_witness :
  fst (query_from_db Demo.tiled_tuner Demo.cfg
         (snd (record_into_db Demo.tiled_tuner (Finite (17 # 10)) Demo.cfg
                 Demo.seeded))) = Ok (Finite (17 # 10)) /\
  fst (query_from_db Demo.tiled_tuner Demo.cfg
         (snd (record_into_db Demo.tiled_tuner (Finite (45 # 10)) Demo.cfg
                 Demo.seeded))) = Ok (Finite 3).
Proof.
  split.
  - exact (f_equal fst
             (record_into_db_keeps_the_better_runtime (E := Demo.healthy)
                Demo.tiled_tuner (Finite (17 # 10)) (Finite 3) Demo.cfg
                Demo.seeded Demo.seeded _ eq_refl eq_refl)).
  - exact (f_equal fst
             (record_into_db_keeps_the_better_runtime (E := Demo.healthy)
                Demo.tiled_tuner (Finite (45 # 10)) (Finite 3) Demo.cfg
                Demo.seeded Demo.seeded _ eq_refl eq_refl)).
Defined.

Lemma record_into_db_leaves_other_parameters_witness :
  fst (query_from_db Demo.tiled_tuner [("tile", PyInt 8)]
         (snd (record_into_db Demo.tiled_tuner (Finite 3) Demo.cfg
                 (Demo.empty_world Demo.healthy)))) =
    Raise ConfigurationNotInDBError.
Proof.
  refine (record_into_db_leaves_other_parameters (E := Demo.healthy)
            Demo.tiled_tuner (Finite 3) Demo.cfg [("tile", PyInt 8)]
            (Demo.empty_world Demo.healthy) Demo.seeded _ _
            eq_refl eq_refl _ eq_refl).
  discriminate.
Defined.

Lemma seed_configurations_selects_every_record_witness :
  exists l s,
    fst (seed_configurations_selected Demo.tiled_tuner Demo.seeded) = Ok l /\
    json_dumps_sort_keys (float_repr (External := Demo.healthy)) Demo.cfg =
      Ok s /\
    fst (seed_configurations_selected Demo.tiled_tuner
           (snd (record_into_db Demo.tiled_tuner (Finite 3) Demo.cfg
                   Demo.seeded))) = Ok (l ++ [s])%list /\
    List.length (l ++ [s])%list = 2%nat.
Proof.
  destruct (seed_configurations_selects_every_record (E := Demo.healthy)
              Demo.tiled_tuner (Finite 3) Demo.cfg Demo.seeded _ eq_refl)
    as [l [s [Hl [Hs Hafter]]]].
  exists l, s. repeat split; try assumption.
  injection Hl as <-. reflexivity.
Defined.

Lemma seed_configurations_ignores_other_transform_spaces_witness :
  fst (seed_configurations_selected Demo.tiled_tuner Demo.seeded_by_raw) =
    Ok [].
Proof.
  refine (seed_configurations_ignores_other_transform_spaces
            (E := Demo.healthy) Demo.tiled_tuner Demo.raw_tuner
            (Finite (17 # 10)) Demo.cfg (Demo.empty_world Demo.healthy)
            Demo.seeded_by_raw _ eq_refl).
  discriminate.
Defined.

Lemma manipulator_declares_every_parameter_witness :
  exists tf,
    transform_func Demo.tiled_tuner (Demo.empty_world Demo.healthy) =
      (Ok tf,
       snd (transform_func Demo.tiled_tuner
              (Demo.empty_world Demo.healthy))) /\
    map transform_param.var_name (transform_params tf) = ["tile"].
Proof.
  destruct (manipulator_declares_every_parameter (E := Demo.healthy)
              Demo.param_func Demo.param_repr Demo.tiled_tuner
              (Demo.empty_world Demo.healthy) _
              [IntegerParameter "tile" (PyInt 1) (PyInt 9)] eq_refl)
    as [tf [Htf [_ Hnames]]].
  exists tf. split; [exact Htf |]. symmetry. exact Hnames.
Defined.

Lemma manipulator_rejects_other_objects_witness :
  manipulator (E := Demo.healthy) Demo.param_func Demo.param_repr
    Demo.tiled_tuner Demo.odd_loaded =
    (Raise (OtherError "NotImplementedError"
              "Parameter: transform_param(var_name='mystery')."),
     Demo.odd_loaded).
Proof.
  apply (manipulator_rejects_other_objects (E := Demo.healthy)
           Demo.param_func Demo.param_repr Demo.tiled_tuner Demo.odd_loaded
           Demo.odd_loaded Demo.odd
           [transform_param.mk "tile" "tile_range"]
           [transform_param.mk "prefetch" "flag"]
           (transform_param.mk "mystery" "nothing") PyNone).
  - reflexivity.
  - reflexivity.
  - intros p [<- | []]. eexists. reflexivity.
  - reflexivity.
Defined.

Lemma bind_args_stops_at_first_failure_witness :
  bind_args (E := Demo.healthy) Demo.failing "ep,pi->ei" Demo.cfg
    (Demo.empty_world Demo.healthy) =
    (Raise (OtherError "NameError" "bogus"),
     add_calls (Demo.empty_world Demo.healthy)
       [call_einsum_arg (E := Demo.healthy) "ndim" "ep,pi->ei";
        call_einsum_arg (E := Demo.healthy) "bogus" "ep,pi->ei"]).
Proof.
  apply (bind_args_stops_at_first_failure (E := Demo.healthy) Demo.failing
           "ep,pi->ei" Demo.cfg (Demo.empty_world Demo.healthy)
           [einsum_arg.mk "ndim" "ndim"] [einsum_arg.mk "ndof" "ndim"]
           (einsum_arg.mk "nelem" "bogus")).
  - reflexivity.
  - intros arg [<- | []]. exists (PyInt 3). reflexivity.
  - reflexivity.
Defined.

Lemma bind_args_keywords_well_formed_witness :
  partial.func Demo.bound = cache Demo.raw_transform /\
  dict_wf (partial.keywords Demo.bound) /\
  dict_get (partial.keywords Demo.bound) "tile" = Some (PyInt 4).
Proof.
  destruct (bind_args_keywords_well_formed (E := Demo.healthy) Demo.tiled
              "ep,pi->ei" Demo.cfg (Demo.empty_world Demo.healthy)
              (add_calls (Demo.empty_world Demo.healthy)
                 [call_einsum_arg (E := Demo.healthy) "ndim" "ep,pi->ei"])
              Demo.bound eq_refl) as [Hfunc [Hwf Hget]].
  split; [exact Hfunc |]. split; [exact Hwf |].
  apply Hget. left. reflexivity.
Defined.

Lemma run_rejects_unserializable_parameters_witness :
  exists msg,
    run Demo.tiled_tuner [("tile", NpInteger 4)]
      (Demo.empty_world Demo.healthy) =
      (Raise (TypeError msg), snd (conn (Demo.empty_world Demo.healthy))) /\
    calls (snd (conn (Demo.empty_world Demo.healthy))) = [].
Proof.
  destruct (run_rejects_unserializable_parameters (E := Demo.healthy)
              Demo.tiled_tuner [("tile", NpInteger 4)]
              (Demo.empty_world Demo.healthy)) as [msg [Hrun [Hcalls _]]].
  - exists "tile", (NpInteger 4). split; [left |]; reflexivity.
  - exists msg. split; [exact Hrun | exact Hcalls].
Defined.

Lemma run_fails_before_measuring_witness :
  fst (run Demo.missing_tuner Demo.cfg (Demo.empty_world Demo.healthy)) =
    Raise (OtherError "FileNotFoundError" "/opt/spaces/missing.py") /\
  filter is_measurement
    (calls (snd (run Demo.missing_tuner Demo.cfg
                   (Demo.empty_world Demo.healthy)))) = [] /\
  fst (run Demo.tiled_tuner [("ndim", PyInt 5)]
         (Demo.empty_world Demo.healthy)) =
    Raise (TypeError ("functools.partial() got multiple values for "
                      ++ "keyword argument 'ndim'")) /\
  filter is_measurement
    (calls (snd (run Demo.tiled_tuner [("ndim", PyInt 5)]
                   (Demo.empty_world Demo.healthy)))) = [].
Proof.
  destruct (run_fails_before_measuring (E := Demo.healthy)
              Demo.missing_tuner Demo.cfg (Demo.empty_world Demo.healthy)
              _ eq_refl) as [Hload _].
  destruct (Hload _ _ eq_refl) as [Hrun1 [Hmeas1 _]].
  destruct (run_fails_before_measuring (E := Demo.healthy)
              Demo.tiled_tuner [("ndim", PyInt 5)]
              (Demo.empty_world Demo.healthy) _ eq_refl) as [_ Hbind].
  destruct (Hbind _ _ _ _ eq_refl eq_refl) as [Hrun2 [Hmeas2 _]].
  split; [exact (f_equal fst Hrun1) |].
  split; [rewrite Hrun1; exact Hmeas1 |].
  split; [exact (f_equal fst Hrun2) |].
  rewrite Hrun2. exact Hmeas2.
Defined.

Lemma run_measures_records_and_then_hits_witness :
  exists w3,
    run Demo.tiled_tuner Demo.cfg (Demo.empty_world Demo.healthy) =
      (Ok (mkResult (Finite (21 # 10))), w3) /\
    List.length (rows_of w3) = 1%nat /\
    run Demo.tiled_tuner Demo.cfg w3 =
      (Ok (mkResult (Finite (21 # 10))), w3).
Proof.
  destruct (run_measures_records_and_then_hits (E := Demo.healthy)
              Demo.tiled_tuner Demo.cfg (Demo.empty_world Demo.healthy)
              _ _ _ _ _ _ _ eq_refl eq_refl eq_refl eq_refl eq_refl)
    as [w3 [new [Hrun [Hrows [_ [_ [_ Hagain]]]]]]].
  exists w3. split; [exact Hrun |]. split; [| exact Hagain].
  rewrite Hrows. reflexivity.
Defined.

Lemma transform_space_id_of_implementation_witness :
  transform_space_id Demo.impl_tuner = "ifj_fe_fej_fi.py" /\
  transform_space_id Demo.tiled_tuner = "/opt/spaces/tiled.py".
Proof.
  split.
  - refine (transform_space_id_of_implementation (E := Demo.healthy)
              Demo.impl_tuner "/opt/feinsum/tuning/impls" "ifj_fe_fej_fi.py"
              _ eq_refl eq_refl eq_refl).
    discriminate.
  - refine (transform_space_id_of_implementation (E := Demo.healthy)
              Demo.tiled_tuner "/opt/spaces" "tiled.py"
              _ eq_refl eq_refl eq_refl).
    discriminate.
Defined.
